(** * Zone occupancy analysis of the crowd-count backend

    A shallow embedding of [Backend/app/routes/feeds_routes.py]:
    the geometry helpers, the nested helper [calculate_iou] and the route
    handler [analyze_zone], followed by the properties of the analysis that
    the specification states.

    Conventions of the embedding.
    - Python [int] is [Z]; [//] and [%] with a positive divisor are [Z.div]
      and [Z.modulo] (both round towards minus infinity, as Python does).
    - Python [float] is idealised as an exact rational [Q]: true division
      [a / b] is [Qdiv], the literal [0.3] is [3 # 10], [round(x, 2)] is
      rounding half to even on hundredths.  Box areas of video frames stay
      below 2^26; at that size two quotients of areas that differ as
      rationals differ as doubles, so the comparisons [iou > 0.3] and
      [iou > best_iou] come out the same on doubles and on rationals.
    - [cv2.pointPolygonTest] belongs to OpenCV, not to this repository: it is
      a parameter of the development ([None] stands for a raised exception).
    - A raised, uncaught Python exception is the failure [Unhandled]. *)

From Stdlib Require Import String ZArith QArith Qround List Bool Lia Lqa Sorted.
Import ListNotations.
Open Scope Z_scope.

(** ** Results of fallible code *)

Inductive Failure : Type :=
| ZoneIdRequired    (* 400 "zone_id is required" *)
| ZoneNotFound      (* 404 "Zone not found" *)
| InsufficientData  (* 400 "No cached detections available. Please re-upload the video." *)
| NoFramesMatched   (* 400 "No frames analyzed. Check zone definition." *)
| Unhandled.        (* an exception no handler catches: ZeroDivisionError on fps = 0.0 *)

Inductive result (A : Type) : Type :=
| Ok (a : A)
| Err (e : Failure).
Arguments Ok {A} a.
Arguments Err {A} e.

Definition bind {A B : Type} (r : result A) (k : A -> result B) : result B :=
  match r with
  | Ok a => k a
  | Err e => Err e
  end.

Notation "x <- r ;; k" := (bind r (fun x => k))
  (at level 61, r at next level, right associativity).

(** ** Data model *)

Definition Point : Type := Z * Z.
Definition Polygon : Type := list Point.

(** A cached box is a JSON list; [x1, y1, x2, y2 = box] succeeds on exactly
    four entries and raises otherwise. *)
Definition RawBox : Type := list Z.
Definition Box : Type := Z * Z * Z * Z.

Definition unpack_box (box : RawBox) : option Box :=
  match box with
  | [x1; y1; x2; y2] => Some (x1, y1, x2, y2)
  | _ => None
  end.

Definition DateTime : Type := Z.

(** One entry of [detections_cache]: [{"timestamp", "frame", "boxes"}]. *)
Record Detection : Type := mkDetection {
  frame : Z;
  timestamp : option Q;
  boxes : list RawBox
}.

(** One entry of [tracked_persons]. The key ['id'] is [person_id] here. *)
Record TrackedPerson : Type := mkPerson {
  person_id : Z;
  first_frame : Z;
  last_frame : Z;
  last_box : Box
}.

(** The dictionary [analysis_summary]. *)
Record AnalysisResult : Type := mkAnalysis {
  zone_id : string;
  zone_name : option string;
  frames_analyzed : Z;
  frame_step : Z;
  fps : Q;
  duration : Q;
  avg_count : Q;
  min_count : Z;
  peak_count : Z;
  peak_time : Q;
  total_count : Z;
  total_persons_passed : Z;
  counts_per_frame : list Z;
  timestamps : list Q;
  analyzed_at : DateTime;
  analyzed_by : string
}.

(** The dictionary [history_entry]. *)
Record HistoryEntry : Type := mkHistory {
  h_analysis_id : string;
  h_zone_id : string;
  h_zone_name : option string;
  h_timestamp : DateTime;
  h_avg_count : Q;
  h_peak_count : Z;
  h_total_count : Z;
  h_total_persons_passed : Z;
  h_duration : Q;
  h_analyzed_by : string
}.

(** A zone of a feed document, with the three keys the handler sets. *)
Record Zone : Type := mkZone {
  z_zone_id : string;
  z_zone_name : option string;
  z_polygon : Polygon;
  z_last_analysis : option AnalysisResult;
  z_total_count : option Z;
  z_analyzed_at : option DateTime
}.

(** The part of a feed document that [analyze_zone] reads and writes. *)
Record Feed : Type := mkFeed {
  summary_fps : option Q;
  detections_cache : list Detection;
  zones : list Zone;
  analysis_history : list HistoryEntry
}.

(** The JSON body of the request. *)
Record Request : Type := mkRequest {
  req_zone_id : option string;
  req_frame_step : option Z
}.

(** What the handler takes from its environment during one call: the three
    readings of [datetime.utcnow()], in call order, and the fresh
    [ObjectId()]. *)
Record Env : Type := mkEnv {
  utcnow_summary : DateTime;
  utcnow_zone : DateTime;
  utcnow_history : DateTime;
  new_object_id : string
}.

(** ** Float helpers *)

Definition Qgt_bool (x y : Q) : bool := negb (Qle_bool x y).

Definition true_div (a b : Z) : Q := (inject_Z a / inject_Z b)%Q.

(** [round(x, 2)]: nearest hundredth, ties to the even one. *)
Definition round_half_even (x : Q) : Z :=
  let n := Qfloor x in
  let r := (x - inject_Z n)%Q in
  if Qgt_bool (1 # 2) r then n
  else if Qgt_bool r (1 # 2) then n + 1
  else if Z.even n then n else n + 1.

Definition round2 (x : Q) : Q :=
  (inject_Z (round_half_even (x * 100)) / 100)%Q.

(** ** [calculate_iou] (nested in [analyze_zone]) *)

Definition calculate_iou (box1 box2 : Box) : Q :=
  let '(x1_1, y1_1, x2_1, y2_1) := box1 in
  let '(x1_2, y1_2, x2_2, y2_2) := box2 in
  let x_left := Z.max x1_1 x1_2 in
  let y_top := Z.max y1_1 y1_2 in
  let x_right := Z.min x2_1 x2_2 in
  let y_bottom := Z.min y2_1 y2_2 in
  if (x_right <? x_left) || (y_bottom <? y_top) then 0%Q
  else
    let intersection_area := (x_right - x_left) * (y_bottom - y_top) in
    let box1_area := (x2_1 - x1_1) * (y2_1 - y1_1) in
    let box2_area := (x2_2 - x1_2) * (y2_2 - y1_2) in
    let union_area := box1_area + box2_area - intersection_area in
    if 0 <? union_area then true_div intersection_area union_area else 0%Q.

Definition iou_threshold : Q := 3 # 10.

(** ** A sample point-in-polygon oracle

    An even-odd crossing test on integer points: [0] on an edge, [1] for an
    odd number of crossings of the ray to the right, [-1] otherwise; it
    raises on the empty contour.  It instantiates the OpenCV parameter in
    the worked examples; the theorems are stated for every oracle. *)

Definition edges (polygon : Polygon) : list (Point * Point) :=
  match polygon with
  | [] => []
  | p :: rest => combine polygon (rest ++ [p])
  end.

Definition on_edge (pt : Point) (e : Point * Point) : bool :=
  let '(px, py) := pt in
  let '((ax, ay), (bx, by_)) := e in
  ((bx - ax) * (py - ay) =? (by_ - ay) * (px - ax))
  && (Z.min ax bx <=? px) && (px <=? Z.max ax bx)
  && (Z.min ay by_ <=? py) && (py <=? Z.max ay by_).

Definition crosses (pt : Point) (e : Point * Point) : bool :=
  let '(px, py) := pt in
  let '((ax, ay), (bx, by_)) := e in
  let d := by_ - ay in
  negb (Bool.eqb (py <? ay) (py <? by_))
  && (if 0 <? d then (px - ax) * d <? (bx - ax) * (py - ay)
      else (bx - ax) * (py - ay) <? (px - ax) * d).

Definition crossing_test (polygon : Polygon) (pt : Point) : option Z :=
  match polygon with
  | [] => None
  | _ =>
      if existsb (on_edge pt) (edges polygon) then Some 0
      else if Nat.odd (length (filter (crosses pt) (edges polygon)))
           then Some 1 else Some (-1)
  end.

Section Analysis.

(** [cv2.pointPolygonTest(contour, pt, False)]. *)
Variable pointPolygonTest : Polygon -> Point -> option Z.

(** ** [_is_point_in_polygon] *)

Definition _is_point_in_polygon (point : Point) (polygon : Polygon) : bool :=
  match pointPolygonTest polygon point with
  | Some result => 0 <=? result
  | None => false
  end.

(** ** The per-frame scan of [analyze_zone]

    The body of [for box in boxes]: the accumulator is
    [(count_in_zone, boxes_in_zone)]; a box that does not unpack raises
    inside the [try] and is skipped. *)

Definition scan_box (polygon : Polygon) (acc : Z * list Box) (box : RawBox)
  : Z * list Box :=
  match unpack_box box with
  | Some (x1, y1, x2, y2) =>
      let cx := (x1 + x2) / 2 in
      let cy := (y1 + y2) / 2 in
      if _is_point_in_polygon (cx, cy) polygon
      then (fst acc + 1, snd acc ++ [(x1, y1, x2, y2)])
      else acc
  | None => acc
  end.

Definition scan_boxes (polygon : Polygon) (bs : list RawBox) : Z * list Box :=
  fold_left (scan_box polygon) bs (0, []).

(** ** Tracking of persons across frames *)

(** The three locals of the matching loop. *)
Record BestMatch : Type := mkBest {
  matched : bool;
  best_match_id : option Z;
  best_iou : Q
}.

Definition no_match : BestMatch :=
  {| matched := false; best_match_id := None; best_iou := 0%Q |}.

(** The body of [for person in tracked_persons] of the matching loop. *)
Definition consider (frame_idx : Z) (box : Box) (m : BestMatch)
  (person : TrackedPerson) : BestMatch :=
  if last_frame person >=? frame_idx - 10 then
    let iou := calculate_iou box (last_box person) in
    if Qgt_bool iou iou_threshold && Qgt_bool iou (best_iou m) then
      {| matched := true;
         best_match_id := Some (person_id person);
         best_iou := iou |}
    else m
  else m.

Definition find_match (frame_idx : Z) (box : Box)
  (tracked_persons : list TrackedPerson) : BestMatch :=
  fold_left (consider frame_idx box) tracked_persons no_match.

(** The update loop: the first person with the matched id is rewritten in
    place, then [break]. *)
Fixpoint update_person (best : Z) (box : Box) (frame_idx : Z)
  (tracked_persons : list TrackedPerson) : list TrackedPerson :=
  match tracked_persons with
  | [] => []
  | person :: rest =>
      if person_id person =? best then
        {| person_id := person_id person;
           first_frame := first_frame person;
           last_frame := frame_idx;
           last_box := box |} :: rest
      else person :: update_person best box frame_idx rest
  end.

(** [tracked_persons] and [next_person_id].  The list
    [current_frame_persons] is only ever appended to and never read; it is
    left out. *)
Record Tracker : Type := mkTracker {
  tracked_persons : list TrackedPerson;
  next_person_id : Z
}.

Definition new_tracker : Tracker :=
  {| tracked_persons := []; next_person_id := 0 |}.

(** The body of [for box in boxes_in_zone]. *)
Definition track_box (frame_idx : Z) (tr : Tracker) (box : Box) : Tracker :=
  let m := find_match frame_idx box (tracked_persons tr) in
  match matched m, best_match_id m with
  | true, Some best =>
      {| tracked_persons :=
           update_person best box frame_idx (tracked_persons tr);
         next_person_id := next_person_id tr |}
  | _, _ =>
      {| tracked_persons :=
           tracked_persons tr ++
           [{| person_id := next_person_id tr;
               first_frame := frame_idx;
               last_frame := frame_idx;
               last_box := box |}];
         next_person_id := next_person_id tr + 1 |}
  end.

(** ** The loop over the cache *)

Record Loop : Type := mkLoop {
  counts : list Z;
  stamps : list Q;
  tracker : Tracker
}.

Definition loop_start : Loop :=
  {| counts := []; stamps := []; tracker := new_tracker |}.

(** The default argument [round(frame_idx / fps, 2)] of [det.get]: Python
    evaluates it on every call, and float division by zero raises. *)
Definition default_timestamp (frame_idx : Z) (fps_ : Q) : result Q :=
  if Qeq_bool fps_ 0 then Err Unhandled
  else Ok (round2 (inject_Z frame_idx / fps_)).

Definition skipped (frame_step_ frame_idx : Z) : bool :=
  (1 <? frame_step_) && negb (frame_idx mod frame_step_ =? 0).

(** The body of [for det in detections_cache]. *)
Definition visit (polygon : Polygon) (fps_ : Q) (frame_step_ : Z)
  (st : Loop) (det : Detection) : result Loop :=
  let frame_idx := frame det in
  if skipped frame_step_ frame_idx then Ok st
  else
    let '(count_in_zone, boxes_in_zone) := scan_boxes polygon (boxes det) in
    let tr := fold_left (track_box frame_idx) boxes_in_zone (tracker st) in
    dflt <- default_timestamp frame_idx fps_ ;;
    Ok {| counts := counts st ++ [count_in_zone];
          stamps := stamps st ++
                    [match timestamp det with Some t => t | None => dflt end];
          tracker := tr |}.

Fixpoint run_loop (polygon : Polygon) (fps_ : Q) (frame_step_ : Z)
  (cache : list Detection) (st : Loop) : result Loop :=
  match cache with
  | [] => Ok st
  | det :: rest =>
      st' <- visit polygon fps_ frame_step_ st det ;;
      run_loop polygon fps_ frame_step_ rest st'
  end.

(** ** NumPy reductions used on [counts]

    [np.max], [np.min] and [np.mean] of a non-empty integer list, and
    [np.argmax], which scans left to right and moves only on a strictly
    larger entry.  NumPy raises on the empty list; [analyze_zone] returns
    before that, and the value [0] given here is never used. *)

Definition np_sum (a : list Z) : Z := fold_left Z.add a 0.

Definition np_mean (a : list Z) : Q := true_div (np_sum a) (Z.of_nat (length a)).

Definition np_max (a : list Z) : Z :=
  match a with
  | [] => 0
  | x :: rest => fold_left Z.max rest x
  end.

Definition np_min (a : list Z) : Z :=
  match a with
  | [] => 0
  | x :: rest => fold_left Z.min rest x
  end.

(** The scan state is (index of the best entry, best entry, next index). *)
Definition argmax_step (s : Z * Z * Z) (v : Z) : Z * Z * Z :=
  let '(best_i, best_v, i) := s in
  if best_v <? v then (i, v, i + 1) else (best_i, best_v, i + 1).

Definition np_argmax (a : list Z) : Z :=
  match a with
  | [] => 0
  | x :: rest => fst (fst (fold_left argmax_step rest (0, x, 1)))
  end.

(** ** [analyze_zone], from the cache check to [analysis_summary]

    [now] is the reading of [datetime.utcnow()] taken for ["analyzed_at"]. *)

Definition analyze (now : DateTime) (current_user_email : string)
  (zone_id_ : string) (zone : Zone)
  (cache : list Detection) (fps_ : Q) (frame_step_ : Z)
  : result AnalysisResult :=
  match cache with
  | [] => Err InsufficientData
  | _ :: _ =>
      st <- run_loop (z_polygon zone) fps_ frame_step_ cache loop_start ;;
      match counts st with
      | [] => Err NoFramesMatched
      | _ :: _ =>
          let avg_count_ := np_mean (counts st) in
          let peak_count_ := np_max (counts st) in
          let peak_idx := np_argmax (counts st) in
          let peak_time_ :=
            if peak_idx <? Z.of_nat (length (stamps st))
            then nth (Z.to_nat peak_idx) (stamps st) 0%Q else 0%Q in
          let total_detections := peak_count_ in
          let min_count_ := np_min (counts st) in
          let total_persons_passed_ :=
            Z.of_nat (length (tracked_persons (tracker st))) in
          Ok {| zone_id := zone_id_;
                zone_name := z_zone_name zone;
                frames_analyzed := Z.of_nat (length (counts st));
                frame_step := frame_step_;
                fps := fps_;
                duration := last (stamps st) 0%Q;
                avg_count := avg_count_;
                min_count := min_count_;
                peak_count := peak_count_;
                peak_time := peak_time_;
                total_count := total_detections;
                total_persons_passed := total_persons_passed_;
                counts_per_frame := counts st;
                timestamps := stamps st;
                analyzed_at := now;
                analyzed_by := current_user_email |}
      end
  end.

(** ** Storing the result

    [update_one] with the positional operator [zones.$] rewrites the first
    zone whose id matches; [$push] appends to [analysis_history].  The
    database is taken to be available: the two [update_one] calls do not
    raise. *)

Fixpoint set_zone_analysis (zone_id_ : string) (summary : AnalysisResult)
  (at_ : DateTime) (zs : list Zone) : list Zone :=
  match zs with
  | [] => []
  | z :: rest =>
      if String.eqb (z_zone_id z) zone_id_ then
        {| z_zone_id := z_zone_id z;
           z_zone_name := z_zone_name z;
           z_polygon := z_polygon z;
           z_last_analysis := Some summary;
           z_total_count := Some (total_count summary);
           z_analyzed_at := Some at_ |} :: rest
      else z :: set_zone_analysis zone_id_ summary at_ rest
  end.

Definition history_entry (env : Env) (summary : AnalysisResult) : HistoryEntry :=
  {| h_analysis_id := new_object_id env;
     h_zone_id := zone_id summary;
     h_zone_name := zone_name summary;
     h_timestamp := utcnow_history env;
     h_avg_count := avg_count summary;
     h_peak_count := peak_count summary;
     h_total_count := total_count summary;
     h_total_persons_passed := total_persons_passed summary;
     h_duration := duration summary;
     h_analyzed_by := analyzed_by summary |}.

Definition store (env : Env) (summary : AnalysisResult) (feed_obj : Feed) : Feed :=
  {| summary_fps := summary_fps feed_obj;
     detections_cache := detections_cache feed_obj;
     zones := set_zone_analysis (zone_id summary) summary (utcnow_zone env)
                (zones feed_obj);
     analysis_history := analysis_history feed_obj ++ [history_entry env summary] |}.

(** ** The handler [analyze_zone]

    The caller is authenticated and may read the feed, and [feed_obj] is the
    document [find_one] returned: the JWT, ownership and lookup steps are
    the framework's.  The result pairs the response with the feed document
    as it stands after the call. *)

Definition analyze_zone (env : Env) (current_user_email : string)
  (data : Request) (feed_obj : Feed) : result AnalysisResult * Feed :=
  let frame_step_ :=
    match req_frame_step data with Some s => s | None => 1 end in
  match req_zone_id data with
  | None => (Err ZoneIdRequired, feed_obj)
  | Some zone_id_ =>
      if String.eqb zone_id_ EmptyString then (Err ZoneIdRequired, feed_obj)
      else
        let frame_step_ := if frame_step_ <? 1 then 1 else frame_step_ in
        match find (fun z => String.eqb (z_zone_id z) zone_id_) (zones feed_obj) with
        | None => (Err ZoneNotFound, feed_obj)
        | Some zone =>
            let fps_ :=
              match summary_fps feed_obj with Some f => f | None => 10%Q end in
            match analyze (utcnow_summary env) current_user_email zone_id_ zone
                    (detections_cache feed_obj) fps_ frame_step_ with
            | Err e => (Err e, feed_obj)
            | Ok analysis_summary =>
                (Ok analysis_summary, store env analysis_summary feed_obj)
            end
        end
  end.

End Analysis.

(** * Notions used to state the properties *)

(** ** Boxes *)

Definition well_formed (b : Box) : Prop :=
  let '(x1, y1, x2, y2) := b in x1 <= x2 /\ y1 <= y2.

Definition box_area (b : Box) : Z :=
  let '(x1, y1, x2, y2) := b in (x2 - x1) * (y2 - y1).

(** Width and height of the intersection, before any clamping. *)
Definition overlap_width (a b : Box) : Z :=
  let '(ax1, _, ax2, _) := a in
  let '(bx1, _, bx2, _) := b in Z.min ax2 bx2 - Z.max ax1 bx1.

Definition overlap_height (a b : Box) : Z :=
  let '(_, ay1, _, ay2) := a in
  let '(_, by1, _, by2) := b in Z.min ay2 by2 - Z.max ay1 by1.

Definition disjoint (a b : Box) : Prop :=
  overlap_width a b < 0 \/ overlap_height a b < 0.

Definition union_area (a b : Box) : Z :=
  box_area a + box_area b
  - Z.max 0 (overlap_width a b) * Z.max 0 (overlap_height a b).

(** ** Frames and occupancy *)

(** The frames the loop does not skip, in stored order. *)
Definition visited (frame_step_ : Z) (det : Detection) : bool :=
  negb (skipped frame_step_ (frame det)).

Definition pass_frames (frame_step_ : Z) (cache : list Detection)
  : list Detection :=
  filter (visited frame_step_) cache.

(** The stride filter as the specification words it. *)
Definition survives (frame_step_ : Z) (det : Detection) : bool :=
  frame det mod frame_step_ =? 0.

Definition centroid (b : Box) : Point :=
  let '(x1, y1, x2, y2) := b in ((x1 + x2) / 2, (y1 + y2) / 2).

(** A cached box is in the zone when it unpacks and its centroid passes the
    point-in-polygon test. *)
Definition in_zone (ppt : Polygon -> Point -> option Z) (polygon : Polygon)
  (box : RawBox) : bool :=
  match unpack_box box with
  | Some b => _is_point_in_polygon ppt (centroid b) polygon
  | None => false
  end.

Definition occupancy (ppt : Polygon -> Point -> option Z) (polygon : Polygon)
  (det : Detection) : Z :=
  Z.of_nat (length (filter (in_zone ppt polygon) (boxes det))).

Definition zone_boxes (ppt : Polygon -> Point -> option Z) (polygon : Polygon)
  (bs : list RawBox) : list Box :=
  flat_map (fun box =>
              match unpack_box box with
              | Some b =>
                  if _is_point_in_polygon ppt (centroid b) polygon
                  then [b] else []
              | None => []
              end) bs.

(** The timestamp recorded for a visited frame, when [fps_] is not zero. *)
Definition stamp_of (fps_ : Q) (det : Detection) : Q :=
  match timestamp det with
  | Some t => t
  | None => round2 (inject_Z (frame det) / fps_)
  end.

(** The in-zone boxes of the whole pass, each with its frame index, in the
    order in which the tracker receives them. *)
Definition work (ppt : Polygon -> Point -> option Z) (polygon : Polygon)
  (frame_step_ : Z) (cache : list Detection) : list (Z * Box) :=
  flat_map (fun det => map (pair (frame det))
                           (zone_boxes ppt polygon (boxes det)))
           (pass_frames frame_step_ cache).

Definition track_item (tr : Tracker) (w : Z * Box) : Tracker :=
  track_box (fst w) tr (snd w).

(** ** Tracking, as the specification words it *)

(** The lookback window: the person was last seen at most 10 frame indices
    before the current frame. *)
Definition in_window (frame_idx : Z) (p : TrackedPerson) : bool :=
  frame_idx - last_frame p <=? 10.

Definition candidates (frame_idx : Z) (persons : list TrackedPerson)
  : list TrackedPerson :=
  filter (in_window frame_idx) persons.

Definition overlap (box : Box) (p : TrackedPerson) : Q :=
  calculate_iou box (last_box p).

Definition refreshed (box : Box) (frame_idx : Z) (p : TrackedPerson)
  : TrackedPerson :=
  {| person_id := person_id p;
     first_frame := first_frame p;
     last_frame := frame_idx;
     last_box := box |}.

Definition newcomer (fresh : Z) (box : Box) (frame_idx : Z) : TrackedPerson :=
  {| person_id := fresh;
     first_frame := frame_idx;
     last_frame := frame_idx;
     last_box := box |}.

(** One in-zone box against the tracker.  Either some candidate overlaps the
    box by more than the threshold: then the first candidate of highest
    overlap is the match, and it alone changes, to the current box and
    frame.  Or no candidate does: then a person is appended under the next
    free id. *)
Inductive tracks (frame_idx : Z) (box : Box) (tr : Tracker) : Tracker -> Prop :=
| tracks_match (before after : list TrackedPerson) (p : TrackedPerson) :
    tracked_persons tr = before ++ p :: after ->
    in_window frame_idx p = true ->
    (iou_threshold < overlap box p)%Q ->
    (forall q, In q (candidates frame_idx (tracked_persons tr)) ->
               (overlap box q <= overlap box p)%Q) ->
    (forall q, In q (candidates frame_idx before) ->
               (overlap box q < overlap box p)%Q) ->
    tracks frame_idx box tr
      {| tracked_persons := before ++ refreshed box frame_idx p :: after;
         next_person_id := next_person_id tr |}
| tracks_new :
    (forall q, In q (candidates frame_idx (tracked_persons tr)) ->
               (overlap box q <= iou_threshold)%Q) ->
    tracks frame_idx box tr
      {| tracked_persons :=
           tracked_persons tr ++ [newcomer (next_person_id tr) box frame_idx];
         next_person_id := next_person_id tr + 1 |}.

(** What the three locals hold once the persons [seen] were considered. *)
Definition best_so_far (frame_idx : Z) (box : Box)
  (seen : list TrackedPerson) (m : BestMatch) : Prop :=
  (matched m = false /\ best_match_id m = None /\ best_iou m = 0%Q
   /\ forall q, In q (candidates frame_idx seen) ->
                (overlap box q <= iou_threshold)%Q)
  \/
  (matched m = true /\
   exists before p after,
     seen = before ++ p :: after
     /\ in_window frame_idx p = true
     /\ best_match_id m = Some (person_id p)
     /\ best_iou m = overlap box p
     /\ (iou_threshold < overlap box p)%Q
     /\ (forall q, In q (candidates frame_idx seen) ->
                   (overlap box q <= overlap box p)%Q)
     /\ (forall q, In q (candidates frame_idx before) ->
                   (overlap box q < overlap box p)%Q)).

(** Whether some candidate overlaps the box by more than the threshold. *)
Definition has_match (frame_idx : Z) (box : Box)
  (persons : list TrackedPerson) : bool :=
  existsb (fun p => Qgt_bool (overlap box p) iou_threshold)
          (candidates frame_idx persons).

(** The number of persons created while the tracker, started in [tr],
    receives the items [w]. *)
Fixpoint creations (w : list (Z * Box)) (tr : Tracker) : nat :=
  match w with
  | [] => 0
  | item :: rest =>
      ((if has_match (fst item) (snd item) (tracked_persons tr)
        then 0 else 1)
       + creations rest (track_item tr item))%nat
  end.

(** Ids are handed out in order: the person at position [i] has id [i], and
    the next id is the number of persons. *)
Definition numbered (tr : Tracker) : Prop :=
  map person_id (tracked_persons tr)
  = map Z.of_nat (seq 0 (length (tracked_persons tr)))
  /\ next_person_id tr = Z.of_nat (length (tracked_persons tr)).

(** ** Aggregates *)

Definition Zsum (l : list Z) : Z := fold_right Z.add 0 l.

Definition is_max (m : Z) (l : list Z) : Prop :=
  In m l /\ Forall (fun c => c <= m) l.

Definition is_min (m : Z) (l : list Z) : Prop :=
  In m l /\ Forall (fun c => m <= c) l.

(** [i] is the index of the first occurrence of [m] in [l], where [m] is
    above every earlier entry. *)
Definition first_at (m : Z) (l : list Z) (i : nat) : Prop :=
  nth_error l i = Some m /\
  forall j c, (j < i)%nat -> nth_error l j = Some c -> c < m.

(** ** Results up to their stamp *)

Definition with_analyzed_at (t : DateTime) (r : AnalysisResult)
  : AnalysisResult :=
  {| zone_id := zone_id r;
     zone_name := zone_name r;
     frames_analyzed := frames_analyzed r;
     frame_step := frame_step r;
     fps := fps r;
     duration := duration r;
     avg_count := avg_count r;
     min_count := min_count r;
     peak_count := peak_count r;
     peak_time := peak_time r;
     total_count := total_count r;
     total_persons_passed := total_persons_passed r;
     counts_per_frame := counts_per_frame r;
     timestamps := timestamps r;
     analyzed_at := t;
     analyzed_by := analyzed_by r |}.

(** ** Data of the worked examples *)

(** A square zone, and a cache of two frames: frame 0 holds two overlapping
    boxes inside the zone and a malformed entry, frame 5 one box inside the
    zone and one outside and has no stored timestamp. *)
Definition square : Polygon := [(0, 0); (100, 0); (100, 100); (0, 100)].

Definition door : Zone :=
  {| z_zone_id := "z1";
     z_zone_name := Some "door"%string;
     z_polygon := square;
     z_last_analysis := None;
     z_total_count := None;
     z_analyzed_at := None |}.

Definition two_frames : list Detection :=
  [ {| frame := 0; timestamp := Some 0%Q;
       boxes := [[10; 10; 20; 20]; [11; 11; 21; 21]; [1; 2; 3]] |};
    {| frame := 5; timestamp := None;
       boxes := [[10; 10; 20; 20]; [200; 200; 210; 210]] |} ].

Definition corridor : Feed :=
  {| summary_fps := Some 25%Q;
     detections_cache := two_frames;
     zones := [door];
     analysis_history := [] |}.

(** The same feed before any detection was cached. *)
Definition unprocessed : Feed :=
  {| summary_fps := Some 25%Q;
     detections_cache := [];
     zones := [door];
     analysis_history := [] |}.

Definition morning : Env :=
  {| utcnow_summary := 1000; utcnow_zone := 1001; utcnow_history := 1002;
     new_object_id := "a1" |}.

Definition evening : Env :=
  {| utcnow_summary := 2000; utcnow_zone := 2001; utcnow_history := 2002;
     new_object_id := "a2" |}.

Definition ask (step : option Z) : Request :=
  {| req_zone_id := Some "z1"%string; req_frame_step := step |}.

(** * The other handlers of [feeds_routes.py]

    As for [analyze_zone], the caller is authenticated and may use the
    feed, [feed_obj] is the document [find_one] returned, and the database
    is available. *)

(** ** [_boxes_to_serializable]

    Detector boxes are sequences of integers, on which [int] is the
    identity; a box that does not unpack to four entries raises inside the
    [try] and is skipped. *)

Definition _boxes_to_serializable (boxes : list RawBox) : list RawBox :=
  fold_left
    (fun out b =>
       match unpack_box b with
       | Some (x1, y1, x2, y2) => out ++ [[x1; y1; x2; y2]]
       | None => out
       end)
    boxes [].

(** ** Failures of the zone handlers *)

Inductive ZoneFailure : Type :=
| PolygonTooShort   (* 400 "Polygon must contain at least 3 points" *)
| PolygonMalformed  (* 400 "Invalid polygon format" *)
| ZoneMissing       (* 404 "Zone not found", "Zone not found or already deleted" *)
| NothingToUpdate.  (* 400 "No valid fields to update" *)

(** The JSON body of [create_zone]: [zone_name] and [polygon], either of
    which may be absent.  A polygon is a list of points, a point a list of
    integers. *)
Record ZoneRequest : Type := mkZoneRequest {
  zr_zone_name : option string;
  zr_polygon : option (list (list Z))
}.

(** [[int(x), int(y)] for x, y in polygon]: one point that does not unpack
    to two entries raises, and the comprehension with it. *)
Definition to_point (pt : list Z) : option Point :=
  match pt with
  | [x; y] => Some (x, y)
  | _ => None
  end.

Fixpoint to_polygon (polygon : list (list Z)) : option Polygon :=
  match polygon with
  | [] => Some []
  | pt :: rest =>
      match to_point pt, to_polygon rest with
      | Some p, Some ps => Some (p :: ps)
      | _, _ => None
      end
  end.

(** [zone_id[-6:]]. *)
Definition last6 (s : string) : string :=
  substring (String.length s - 6) 6 s.

(** [not polygon or len(polygon) < 3], for a polygon key that is present. *)
Definition too_short (polygon : list (list Z)) : bool :=
  (length polygon <? 3)%nat.

Section Routes.

(** [str.strip] of Python, on the strings a request carries. *)
Variable strip : string -> string.

(** The decoded image, and [DETECTOR]; [None] stands for a raised
    exception. *)
Variable Frame : Type.
Variable DETECTOR : Frame -> option (list RawBox).

Variable pointPolygonTest : Polygon -> Point -> option Z.

(** ** [create_zone]

    [zone_id_] is the fresh [str(ObjectId())].  The key ["created_at"] of
    the zone document is written once and never read by a handler modelled
    here; it is left out of [Zone]. *)

Definition create_zone (zone_id_ : string) (data : ZoneRequest)
  (feed_obj : Feed) : (ZoneFailure + Zone) * Feed :=
  let zone_name_ :=
    strip (match zr_zone_name data with Some n => n | None => EmptyString end) in
  match zr_polygon data with
  | None => (inl PolygonTooShort, feed_obj)
  | Some polygon =>
      if too_short polygon then (inl PolygonTooShort, feed_obj)
      else
        match to_polygon polygon with
        | None => (inl PolygonMalformed, feed_obj)
        | Some polygon_ =>
            let zone_doc :=
              {| z_zone_id := zone_id_;
                 z_zone_name :=
                   Some (if String.eqb zone_name_ EmptyString
                         then String.append "Zone-" (last6 zone_id_)
                         else zone_name_);
                 z_polygon := polygon_;
                 z_last_analysis := None;
                 z_total_count := Some 0;
                 z_analyzed_at := None |} in
            (inr zone_doc,
             {| summary_fps := summary_fps feed_obj;
                detections_cache := detections_cache feed_obj;
                zones := zones feed_obj ++ [zone_doc];
                analysis_history := analysis_history feed_obj |})
        end
  end.

(** ** [update_zone] *)

(** The JSON body of [update_zone]; a polygon key holding [null] behaves as
    one holding the empty list. *)
Record ZoneUpdate : Type := mkZoneUpdate {
  zu_zone_name : option string;
  zu_polygon : option (list (list Z))
}.

(** [next((i for i, z in enumerate(zones) if z.get("zone_id") == zone_id),
    None)]. *)
Fixpoint zone_index (zone_id_ : string) (zs : list Zone) : option nat :=
  match zs with
  | [] => None
  | z :: rest =>
      if String.eqb (z_zone_id z) zone_id_ then Some 0%nat
      else option_map S (zone_index zone_id_ rest)
  end.

(** [$set] of [zones.<idx>.zone_name] and [zones.<idx>.polygon], for the
    keys present in [update_fields]. *)
Definition set_fields (name : option string) (polygon : option Polygon)
  (z : Zone) : Zone :=
  {| z_zone_id := z_zone_id z;
     z_zone_name := match name with Some n => Some n | None => z_zone_name z end;
     z_polygon := match polygon with Some p => p | None => z_polygon z end;
     z_last_analysis := z_last_analysis z;
     z_total_count := z_total_count z;
     z_analyzed_at := z_analyzed_at z |}.

Fixpoint set_at (idx : nat) (f : Zone -> Zone) (zs : list Zone) : list Zone :=
  match zs, idx with
  | [], _ => []
  | z :: rest, O => f z :: rest
  | z :: rest, S i => z :: set_at i f rest
  end.

Definition with_zones (zs : list Zone) (feed_obj : Feed) : Feed :=
  {| summary_fps := summary_fps feed_obj;
     detections_cache := detections_cache feed_obj;
     zones := zs;
     analysis_history := analysis_history feed_obj |}.

Definition update_zone (zone_id_ : string) (data : ZoneUpdate)
  (feed_obj : Feed) : (ZoneFailure + unit) * Feed :=
  match zone_index zone_id_ (zones feed_obj) with
  | None => (inl ZoneMissing, feed_obj)
  | Some idx =>
      let name := option_map strip (zu_zone_name data) in
      let apply polygon :=
        (inr tt,
         with_zones (set_at idx (set_fields name polygon) (zones feed_obj))
           feed_obj) in
      match zu_polygon data with
      | Some polygon =>
          if too_short polygon then (inl PolygonTooShort, feed_obj)
          else
            match to_polygon polygon with
            | None => (inl PolygonMalformed, feed_obj)
            | Some polygon_ => apply (Some polygon_)
            end
      | None =>
          match name with
          | None => (inl NothingToUpdate, feed_obj)
          | Some _ => apply None
          end
      end
  end.

(** ** [delete_zone]

    [$pull] removes every zone whose id matches; [modified_count] is zero
    when there was none. *)

Definition delete_zone (zone_id_ : string) (feed_obj : Feed)
  : (ZoneFailure + unit) * Feed :=
  if existsb (fun z => String.eqb (z_zone_id z) zone_id_) (zones feed_obj)
  then
    (inr tt,
     with_zones
       (filter (fun z => negb (String.eqb (z_zone_id z) zone_id_))
               (zones feed_obj))
       feed_obj)
  else (inl ZoneMissing, feed_obj).

(** ** The detection cache of [upload_video]

    [raw_fps] is [cap.get(cv2.CAP_PROP_FPS)] and [frames] the frames
    [cap2.read()] returns until it fails; the video opens and reads
    without raising, so the outer [except], which empties the cache, is not
    taken.  Both closures that [init_detector] can return catch every
    exception, so the [DETECTOR] of the module never raises; the loop is
    modelled for any detector all the same. *)

(** [int] of a float: truncation towards zero. *)
Definition py_int (x : Q) : Z :=
  if Qle_bool 0 x then Qfloor x else Qceiling x.

(** [cap.get(cv2.CAP_PROP_FPS) or 25.0]. *)
Definition video_fps (raw_fps : Q) : Q :=
  if Qeq_bool raw_fps 0 then 25%Q else raw_fps.

(** [max(1, int(fps / 5))]. *)
Definition capture_step (fps_ : Q) : Z := Z.max 1 (py_int (fps_ / 5)).

(** The [while True] loop, from the frame index [frame_idx] on. *)
Fixpoint read_frames (fps_ : Q) (step : Z) (frames : list Frame)
  (frame_idx : Z) (cache : list Detection) : list Detection :=
  match frames with
  | [] => cache
  | img :: rest =>
      let cache' :=
        if frame_idx mod step =? 0 then
          match DETECTOR img with
          | Some bs =>
              cache ++
              [{| frame := frame_idx;
                  timestamp := Some (inject_Z frame_idx / fps_)%Q;
                  boxes := _boxes_to_serializable bs |}]
          | None => cache
          end
        else cache in
      read_frames fps_ step rest (frame_idx + 1) cache'
  end.

Definition generate_detections (raw_fps : Q) (frames : list Frame)
  : list Detection :=
  let fps_ := video_fps raw_fps in
  read_frames fps_ (capture_step fps_) frames 0 [].

(** The part of [feed_doc] that the handlers modelled here read: it has no
    ["summary"] key, no zone and no history. *)
Definition feed_doc (raw_fps : Q) (frames : list Frame) : Feed :=
  {| summary_fps := None;
     detections_cache := generate_detections raw_fps frames;
     zones := [];
     analysis_history := [] |}.

(** ** [analyze_frame]

    From the decoded image on: [img] is what [cv2.imdecode] returned.
    [zones_] is the parsed form field: [None] when the field is absent,
    holds [null] or does not parse, otherwise a list of polygons. *)

Definition usable_zones (zones_ : option (list Polygon))
  : option (list Polygon) :=
  match zones_ with
  | None => None
  | Some [] => None
  | Some zs =>
      match filter (fun z => (3 <=? length z)%nat) zs with
      | [] => None
      | kept => Some kept
      end
  end.

(** The body of [for box in boxes_serial]. *)
Definition keep_box (zs : list Polygon) (filtered_boxes : list RawBox)
  (box : RawBox) : list RawBox :=
  match unpack_box box with
  | Some (x1, y1, x2, y2) =>
      let cx := (x1 + x2) / 2 in
      let cy := (y1 + y2) / 2 in
      if existsb (_is_point_in_polygon pointPolygonTest (cx, cy)) zs
      then filtered_boxes ++ [box]
      else filtered_boxes
  | None => filtered_boxes
  end.

(** The response: ["count"] and ["boxes"]. *)
Definition analyze_frame (zones_ : option (list Polygon)) (img : Frame)
  : Z * list RawBox :=
  let boxes_ := match DETECTOR img with Some bs => bs | None => [] end in
  let boxes_serial := _boxes_to_serializable boxes_ in
  let filtered_boxes :=
    match usable_zones zones_ with
    | Some zs => fold_left (keep_box zs) boxes_serial []
    | None => boxes_serial
    end in
  (Z.of_nat (length filtered_boxes), filtered_boxes).

End Routes.

(** ** Notions used to state the properties of these handlers *)

Definition zone_ids (feed_obj : Feed) : list string :=
  map z_zone_id (zones feed_obj).

(** Every zone polygon of the feed has at least three points. *)
Definition polygons_ok (feed_obj : Feed) : Prop :=
  Forall (fun z => (3 <= length (z_polygon z))%nat) (zones feed_obj).

(** The centroid of a box lies in one of the polygons. *)
Definition in_some_zone (ppt : Polygon -> Point -> option Z)
  (zs : list Polygon) (box : RawBox) : bool :=
  existsb (fun polygon => in_zone ppt polygon box) zs.

(** The frame indices [0 <= i < n] that the capture step keeps. *)
Definition sampled (step : Z) (n : nat) : list Z :=
  filter (fun i => i mod step =? 0) (map Z.of_nat (seq 0 n)).

(** What the upload loop records for a frame it samples, with index
    between [lo] and [hi]. *)
Definition recorded (fps_ : Q) (step lo hi : Z) (det : Detection) : Prop :=
  lo <= frame det < hi
  /\ frame det mod step = 0
  /\ timestamp det = Some (inject_Z (frame det) / fps_)%Q
  /\ Forall (fun b => exists q, unpack_box b = Some q) (boxes det).

(** One request served on a feed: a zone created under a fresh id, a zone
    updated or deleted, or an analysis. *)
Inductive serves (strip : string -> string)
  (ppt : Polygon -> Point -> option Z) : Feed -> Feed -> Prop :=
| serves_create (zid : string) (data : ZoneRequest) (feed_obj : Feed) :
    ~ In zid (zone_ids feed_obj) ->
    serves strip ppt feed_obj (snd (create_zone strip zid data feed_obj))
| serves_update (zid : string) (data : ZoneUpdate) (feed_obj : Feed) :
    serves strip ppt feed_obj (snd (update_zone strip zid data feed_obj))
| serves_delete (zid : string) (feed_obj : Feed) :
    serves strip ppt feed_obj (snd (delete_zone zid feed_obj))
| serves_analyze (env : Env) (user : string) (data : Request)
    (feed_obj : Feed) :
    serves strip ppt feed_obj (snd (analyze_zone ppt env user data feed_obj)).

(** Any number of requests, one after the other. *)
Inductive reaches (strip : string -> string)
  (ppt : Polygon -> Point -> option Z) (start : Feed) : Feed -> Prop :=
| reaches_start : reaches strip ppt start start
| reaches_next (feed_obj feed' : Feed) :
    reaches strip ppt start feed_obj ->
    serves strip ppt feed_obj feed' ->
    reaches strip ppt start feed'.

(** The total count of a zone is 0 until the zone is analysed, and then
    the peak count of its last analysis, which bears the id of the zone. *)
Definition zone_consistent (z : Zone) : Prop :=
  match z_last_analysis z with
  | Some r => z_total_count z = Some (peak_count r) /\ zone_id r = z_zone_id z
  | None => z_total_count z = Some 0
  end.

(** The request points, as JSON lists, of a stored polygon. *)
Definition as_json (polygon : Polygon) : list (list Z) :=
  map (fun p => [fst p; snd p]) polygon.

(** A detector for the worked examples: a frame is the list of its boxes. *)
Definition reads_boxes (img : list RawBox) : option (list RawBox) := Some img.

Definition clip : list (list RawBox) :=
  [ [[10; 10; 20; 20]; [11; 11; 21; 21]; [1; 2; 3]];
    [[12; 12; 22; 22]];
    [[200; 200; 210; 210]] ].

(** A request for a triangular zone named gate. *)
Definition gate_request : ZoneRequest :=
  {| zr_zone_name := Some "gate"%string;
     zr_polygon := Some [[0; 0]; [50; 0]; [0; 50]] |}.

(** A stand-in for [str.strip] in the worked examples. *)
Definition keeps (s : string) : string := s.

(** * Properties *)

(** ** Rational arithmetic *)

Lemma Qgt_bool_iff (x y : Q) : Qgt_bool x y = true <-> (y < x)%Q.
Proof.
  unfold Qgt_bool. rewrite negb_true_iff.
  split; intro H.
  - apply Qnot_le_lt. intro Hle. apply Qle_bool_iff in Hle. congruence.
  - destruct (Qle_bool x y) eqn:E; trivial.
    apply Qle_bool_iff in E. exfalso. exact (Qlt_not_le _ _ H E).
Qed.

Lemma Qgt_bool_false_iff (x y : Q) : Qgt_bool x y = false <-> (x <= y)%Q.
Proof.
  unfold Qgt_bool. rewrite negb_false_iff. apply Qle_bool_iff.
Qed.

Lemma true_div_self (a : Z) : a <> 0 -> (true_div a a == 1)%Q.
Proof.
  intro Ha. unfold true_div. apply Qmult_inv_r.
  intro H. apply Ha. unfold Qeq in H. simpl in H. lia.
Qed.

Lemma true_div_range (a b : Z) :
  0 <= a -> a <= b -> 0 < b -> (0 <= true_div a b <= 1)%Q.
Proof.
  intros Ha Hab Hb. unfold true_div.
  assert (Hpos : (0 < inject_Z b)%Q) by (unfold Qlt; simpl; lia).
  split.
  - apply Qle_shift_div_l; trivial. rewrite Qmult_0_l.
    change 0%Q with (inject_Z 0). rewrite <- Zle_Qle. exact Ha.
  - apply Qle_shift_div_r; trivial. rewrite Qmult_1_l.
    rewrite <- Zle_Qle. exact Hab.
Qed.

(** ** Intersection over union *)

Lemma iou_comm (a b : Box) : calculate_iou a b = calculate_iou b a.
Proof.
  destruct a as [[[ax1 ay1] ax2] ay2], b as [[[bx1 by1] bx2] by2].
  unfold calculate_iou.
  rewrite (Z.max_comm bx1 ax1), (Z.max_comm by1 ay1),
          (Z.min_comm bx2 ax2), (Z.min_comm by2 ay2).
  rewrite (Z.add_comm ((bx2 - bx1) * (by2 - by1))).
  reflexivity.
Qed.

Lemma iou_disjoint (a b : Box) : disjoint a b -> calculate_iou a b = 0%Q.
Proof.
  destruct a as [[[ax1 ay1] ax2] ay2], b as [[[bx1 by1] bx2] by2].
  unfold disjoint, overlap_width, overlap_height, calculate_iou.
  intros [H | H].
  - replace (Z.min ax2 bx2 <? Z.max ax1 bx1) with true
      by (symmetry; apply Z.ltb_lt; lia).
    reflexivity.
  - replace (Z.min ay2 by2 <? Z.max ay1 by1) with true
      by (symmetry; apply Z.ltb_lt; lia).
    now rewrite orb_true_r.
Qed.

Lemma iou_overlapping (a b : Box) :
  0 <= overlap_width a b -> 0 <= overlap_height a b ->
  calculate_iou a b =
  if 0 <? union_area a b
  then true_div (overlap_width a b * overlap_height a b) (union_area a b)
  else 0%Q.
Proof.
  destruct a as [[[ax1 ay1] ax2] ay2], b as [[[bx1 by1] bx2] by2].
  unfold union_area, overlap_width, overlap_height, box_area, calculate_iou.
  intros Hw Hh.
  replace (Z.min ax2 bx2 <? Z.max ax1 bx1) with false
    by (symmetry; apply Z.ltb_ge; lia).
  replace (Z.min ay2 by2 <? Z.max ay1 by1) with false
    by (symmetry; apply Z.ltb_ge; lia).
  rewrite (Z.max_r 0 (Z.min ax2 bx2 - Z.max ax1 bx1)) by lia.
  rewrite (Z.max_r 0 (Z.min ay2 by2 - Z.max ay1 by1)) by lia.
  reflexivity.
Qed.

Lemma overlap_le_area (a b : Box) :
  well_formed a -> well_formed b ->
  0 <= overlap_width a b -> 0 <= overlap_height a b ->
  overlap_width a b * overlap_height a b <= box_area a /\
  overlap_width a b * overlap_height a b <= box_area b.
Proof.
  destruct a as [[[ax1 ay1] ax2] ay2], b as [[[bx1 by1] bx2] by2].
  unfold well_formed, overlap_width, overlap_height, box_area.
  intros [Hax Hay] [Hbx Hby] Hw Hh.
  split; apply Z.mul_le_mono_nonneg; lia.
Qed.

(** C8. For well-formed boxes [a] and [b]: the overlap ratio is symmetric;
    a box of positive area has ratio 1 with itself; the ratio is 0 when the
    intersection has negative width or height and when the union area is
    zero; and the ratio always lies between 0 and 1, so no negative area
    ever shows. *)
Theorem iou_properties (a b : Box) :
  well_formed a -> well_formed b ->
  calculate_iou a b = calculate_iou b a
  /\ (0 < box_area a -> (calculate_iou a a == 1)%Q)
  /\ (disjoint a b -> calculate_iou a b = 0%Q)
  /\ (union_area a b = 0 -> calculate_iou a b = 0%Q)
  /\ (0 <= calculate_iou a b <= 1)%Q.
Proof.
  intros Ha Hb.
  split; [apply iou_comm |].
  split.
  { intro Hpos.
    assert (Hw : overlap_width a a = snd (fst a) - fst (fst (fst a)) /\
                 overlap_height a a = snd a - snd (fst (fst a))).
    { destruct a as [[[ax1 ay1] ax2] ay2]. simpl.
      now rewrite !Z.min_id, !Z.max_id. }
    destruct Hw as [Hw Hh].
    assert (Harea : box_area a = overlap_width a a * overlap_height a a).
    { rewrite Hw, Hh. now destruct a as [[[ax1 ay1] ax2] ay2]. }
    assert (Hwf : 0 <= overlap_width a a /\ 0 <= overlap_height a a).
    { rewrite Hw, Hh. destruct a as [[[ax1 ay1] ax2] ay2]. simpl in *. lia. }
    rewrite iou_overlapping by tauto.
    assert (Hu : union_area a a = box_area a).
    { unfold union_area. rewrite !Z.max_r by tauto. lia. }
    rewrite Hu, <- Harea.
    replace (0 <? box_area a) with true by (symmetry; apply Z.ltb_lt; lia).
    apply true_div_self. lia. }
  split; [apply iou_disjoint |].
  destruct (Z_lt_dec (overlap_width a b) 0) as [Hw | Hw].
  { rewrite iou_disjoint by (left; trivial).
    split; [reflexivity | split; discriminate]. }
  destruct (Z_lt_dec (overlap_height a b) 0) as [Hh | Hh].
  { rewrite iou_disjoint by (right; trivial).
    split; [reflexivity | split; discriminate]. }
  rewrite iou_overlapping by lia.
  destruct (overlap_le_area a b) as [H1 H2]; trivial; try lia.
  assert (Hu : union_area a b =
               box_area a + box_area b - overlap_width a b * overlap_height a b).
  { unfold union_area. rewrite !Z.max_r by lia. reflexivity. }
  split.
  - intros ->. reflexivity.
  - destruct (0 <? union_area a b) eqn:E.
    + apply Z.ltb_lt in E.
      apply true_div_range; [apply Z.mul_nonneg_nonneg; lia | lia | lia].
    + split; discriminate.
Qed.

(** C8 at the boxes (0,0,10,10) and (5,5,15,15), which share a 5 by 5
    corner, and at (20,0,30,10), which lies apart from the first. *)
Lemma iou_properties_witness :
  well_formed (0, 0, 10, 10) /\ well_formed (5, 5, 15, 15) /\
  calculate_iou (0, 0, 10, 10) (5, 5, 15, 15)
  = calculate_iou (5, 5, 15, 15) (0, 0, 10, 10)
  /\ Qeq (calculate_iou (0, 0, 10, 10) (0, 0, 10, 10)) 1
  /\ Qle 0 (calculate_iou (0, 0, 10, 10) (5, 5, 15, 15))
  /\ Qle (calculate_iou (0, 0, 10, 10) (5, 5, 15, 15)) 1
  /\ calculate_iou (0, 0, 10, 10) (20, 0, 30, 10) = 0%Q.
Proof.
  assert (Ha : well_formed (0, 0, 10, 10)) by (simpl; lia).
  assert (Hb : well_formed (5, 5, 15, 15)) by (simpl; lia).
  assert (Hc : well_formed (20, 0, 30, 10)) by (simpl; lia).
  split; [exact Ha | split; [exact Hb |]].
  destruct (iou_properties _ _ Ha Hb) as (Hsym & Hself & _ & _ & Hrange).
  destruct (iou_properties _ _ Ha Hc) as (_ & _ & Hapart & _).
  split; [exact Hsym |].
  split; [apply Hself; reflexivity |].
  split; [exact (proj1 Hrange) |].
  split; [exact (proj2 Hrange) |].
  apply Hapart. left. reflexivity.
Defined.

(** ** The scan of one frame *)

Section Loop.

Variable ppt : Polygon -> Point -> option Z.
Variable polygon : Polygon.

Lemma scan_box_count (acc : Z * list Box) (box : RawBox) :
  scan_box ppt polygon acc box =
  (fst acc + (if in_zone ppt polygon box then 1 else 0),
   snd acc ++ zone_boxes ppt polygon [box]).
Proof.
  unfold scan_box, in_zone, zone_boxes. simpl.
  destruct (unpack_box box) as [[[[x1 y1] x2] y2] |]; simpl.
  - destruct (_is_point_in_polygon ppt ((x1 + x2) / 2, (y1 + y2) / 2) polygon);
      simpl.
    + reflexivity.
    + rewrite Z.add_0_r, app_nil_r. now destruct acc.
  - rewrite Z.add_0_r, app_nil_r. now destruct acc.
Qed.

Lemma zone_boxes_cons (box : RawBox) (bs : list RawBox) :
  zone_boxes ppt polygon (box :: bs) =
  zone_boxes ppt polygon [box] ++ zone_boxes ppt polygon bs.
Proof.
  unfold zone_boxes. simpl. now rewrite app_nil_r.
Qed.

Lemma scan_fold (bs : list RawBox) : forall acc,
  fold_left (scan_box ppt polygon) bs acc =
  (fst acc + Z.of_nat (length (filter (in_zone ppt polygon) bs)),
   snd acc ++ zone_boxes ppt polygon bs).
Proof.
  induction bs as [| box bs IH]; intros acc.
  - simpl. rewrite Z.add_0_r, app_nil_r. now destruct acc.
  - cbn [fold_left]. rewrite IH, scan_box_count. cbn [fst snd filter].
    rewrite (zone_boxes_cons box bs), <- app_assoc.
    destruct (in_zone ppt polygon box); cbn [length]; f_equal; lia.
Qed.

Lemma scan_boxes_spec (bs : list RawBox) :
  scan_boxes ppt polygon bs =
  (Z.of_nat (length (filter (in_zone ppt polygon) bs)),
   zone_boxes ppt polygon bs).
Proof.
  unfold scan_boxes. now rewrite scan_fold.
Qed.

(** The number of in-zone boxes of a frame is the number of boxes handed to
    the tracker. *)
Lemma occupancy_zone_boxes (det : Detection) :
  occupancy ppt polygon det =
  Z.of_nat (length (zone_boxes ppt polygon (boxes det))).
Proof.
  unfold occupancy, zone_boxes, in_zone. f_equal.
  induction (boxes det) as [| box bs IH]; trivial.
  simpl. rewrite length_app, <- IH.
  destruct (unpack_box box) as [b |]; trivial.
  now destruct (_is_point_in_polygon ppt (centroid b) polygon).
Qed.

(** ** The loop over the cache *)

Variable fps_ : Q.
Variable frame_step_ : Z.

Lemma visit_skipped (st : Loop) (det : Detection) :
  visited frame_step_ det = false ->
  visit ppt polygon fps_ frame_step_ st det = Ok st.
Proof.
  unfold visited, visit. intro H. apply negb_false_iff in H. now rewrite H.
Qed.

Lemma visit_visited (st : Loop) (det : Detection) :
  visited frame_step_ det = true ->
  visit ppt polygon fps_ frame_step_ st det =
  if Qeq_bool fps_ 0 then Err Unhandled
  else Ok {| counts := counts st ++ [occupancy ppt polygon det];
             stamps := stamps st ++ [stamp_of fps_ det];
             tracker := fold_left (track_box (frame det))
                          (zone_boxes ppt polygon (boxes det)) (tracker st) |}.
Proof.
  unfold visited, visit. intro H. apply negb_true_iff in H. rewrite H.
  rewrite scan_boxes_spec. unfold default_timestamp, stamp_of, occupancy.
  destruct (Qeq_bool fps_ 0); reflexivity.
Qed.

Lemma fold_track_frame (f : Z) (bs : list Box) (tr : Tracker) :
  fold_left track_item (map (pair f) bs) tr =
  fold_left (track_box f) bs tr.
Proof.
  revert tr. induction bs as [| b bs IH]; intro tr; trivial.
  simpl. apply IH.
Qed.

Lemma run_loop_ok (cache : list Detection) : forall st st',
  run_loop ppt polygon fps_ frame_step_ cache st = Ok st' ->
  counts st' =
    counts st ++ map (occupancy ppt polygon) (pass_frames frame_step_ cache)
  /\ stamps st' =
    stamps st ++ map (stamp_of fps_) (pass_frames frame_step_ cache)
  /\ tracker st' =
    fold_left track_item (work ppt polygon frame_step_ cache) (tracker st).
Proof.
  induction cache as [| det rest IH]; intros st st' H.
  - simpl in H. injection H as <-. now rewrite !app_nil_r.
  - cbn [run_loop] in H. unfold work, pass_frames in *. cbn [filter].
    destruct (visited frame_step_ det) eqn:V.
    + rewrite visit_visited in H by trivial.
      destruct (Qeq_bool fps_ 0); [discriminate |].
      cbn [bind] in H. apply IH in H. cbn [counts stamps tracker] in H.
      destruct H as (Hc & Hs & Ht).
      rewrite Hc, Hs, Ht. cbn [map flat_map].
      rewrite <- !app_assoc, fold_left_app, fold_track_frame. auto.
    + rewrite visit_skipped in H by trivial. cbn [bind] in H.
      now apply IH in H.
Qed.

Lemma run_loop_err (cache : list Detection) : forall st e,
  run_loop ppt polygon fps_ frame_step_ cache st = Err e ->
  e = Unhandled /\ Qeq_bool fps_ 0 = true /\ pass_frames frame_step_ cache <> [].
Proof.
  induction cache as [| det rest IH]; intros st e H.
  - discriminate.
  - cbn [run_loop] in H. unfold pass_frames in *. cbn [filter].
    destruct (visited frame_step_ det) eqn:V.
    + rewrite visit_visited in H by trivial.
      destruct (Qeq_bool fps_ 0).
      * cbn [bind] in H. injection H as <-. repeat split. discriminate.
      * cbn [bind] in H. apply IH in H. destruct H as (_ & H & _). discriminate.
    + rewrite visit_skipped in H by trivial. cbn [bind] in H.
      now apply IH in H.
Qed.

Lemma run_loop_none_visited (cache : list Detection) : forall st,
  pass_frames frame_step_ cache = [] ->
  run_loop ppt polygon fps_ frame_step_ cache st = Ok st.
Proof.
  intros st H.
  destruct (run_loop ppt polygon fps_ frame_step_ cache st) as [st' | e] eqn:E.
  - apply run_loop_ok in E. rewrite H in E. unfold work in E. rewrite H in E.
    simpl in E. rewrite !app_nil_r in E. destruct E as (Hc & Hs & Ht).
    destruct st, st'. simpl in *. congruence.
  - apply run_loop_err in E. tauto.
Qed.

Lemma run_loop_total (cache : list Detection) (st : Loop) :
  Qeq_bool fps_ 0 = false ->
  exists st', run_loop ppt polygon fps_ frame_step_ cache st = Ok st'.
Proof.
  intro Hfps.
  destruct (run_loop ppt polygon fps_ frame_step_ cache st) as [st' | e] eqn:E.
  - now exists st'.
  - apply run_loop_err in E. destruct E as (_ & E & _). congruence.
Qed.

End Loop.

(** ** The NumPy reductions *)

Lemma np_sum_from (l : list Z) : forall a, fold_left Z.add l a = a + Zsum l.
Proof.
  induction l as [| x l IH]; intro a; simpl.
  - lia.
  - rewrite IH. lia.
Qed.

Lemma np_sum_Zsum (l : list Z) : np_sum l = Zsum l.
Proof.
  unfold np_sum. now rewrite np_sum_from.
Qed.

Lemma np_mean_spec (l : list Z) :
  l <> [] ->
  (np_mean l * inject_Z (Z.of_nat (length l)) == inject_Z (Zsum l))%Q.
Proof.
  intro Hl. unfold np_mean, true_div. rewrite np_sum_Zsum.
  rewrite Qmult_comm. apply Qmult_div_r.
  intro H. unfold Qeq in H. simpl in H.
  destruct l; [congruence | simpl in H; lia].
Qed.

Lemma fold_max_spec (rest : list Z) : forall x,
  (fold_left Z.max rest x = x \/ In (fold_left Z.max rest x) rest)
  /\ x <= fold_left Z.max rest x
  /\ Forall (fun c => c <= fold_left Z.max rest x) rest.
Proof.
  induction rest as [| y rest IH]; intro x; simpl.
  - repeat split; auto. lia.
  - destruct (IH (Z.max x y)) as (Hin & Hle & Hall).
    repeat split.
    + destruct Hin as [Heq | Hin]; [| auto].
      rewrite Heq. destruct (Z.max_spec x y) as [[_ ->] | [_ ->]]; auto.
    + lia.
    + constructor; [lia | exact Hall].
Qed.

Lemma fold_min_spec (rest : list Z) : forall x,
  (fold_left Z.min rest x = x \/ In (fold_left Z.min rest x) rest)
  /\ fold_left Z.min rest x <= x
  /\ Forall (fun c => fold_left Z.min rest x <= c) rest.
Proof.
  induction rest as [| y rest IH]; intro x; simpl.
  - repeat split; auto. lia.
  - destruct (IH (Z.min x y)) as (Hin & Hle & Hall).
    repeat split.
    + destruct Hin as [Heq | Hin]; [| auto].
      rewrite Heq. destruct (Z.min_spec x y) as [[_ ->] | [_ ->]]; auto.
    + lia.
    + constructor; [lia | exact Hall].
Qed.

Lemma np_max_is_max (l : list Z) : l <> [] -> is_max (np_max l) l.
Proof.
  destruct l as [| x rest]; [congruence | intros _].
  unfold is_max, np_max.
  destruct (fold_max_spec rest x) as (Hin & Hle & Hall).
  split.
  - destruct Hin as [-> | Hin]; [now left | now right].
  - now constructor.
Qed.

Lemma np_min_is_min (l : list Z) : l <> [] -> is_min (np_min l) l.
Proof.
  destruct l as [| x rest]; [congruence | intros _].
  unfold is_min, np_min.
  destruct (fold_min_spec rest x) as (Hin & Hle & Hall).
  split.
  - destruct Hin as [-> | Hin]; [now left | now right].
  - now constructor.
Qed.

(** The scan of [np.argmax] after the entries [pre], continued over [rest]. *)
Lemma argmax_scan (rest : list Z) : forall pre bi bv,
  first_at bv pre bi ->
  Forall (fun c => c <= bv) pre ->
  exists bi',
    fold_left argmax_step rest (Z.of_nat bi, bv, Z.of_nat (length pre)) =
    (Z.of_nat bi', fold_left Z.max rest bv, Z.of_nat (length (pre ++ rest)))
    /\ first_at (fold_left Z.max rest bv) (pre ++ rest) bi'.
Proof.
  induction rest as [| v rest IH]; intros pre bi bv Hfirst Hall.
  - exists bi. simpl. now rewrite app_nil_r.
  - assert (Hbi : (bi < length pre)%nat).
    { apply nth_error_Some. destruct Hfirst as [H _]. congruence. }
    assert (Hlen : Z.of_nat (length pre) + 1 = Z.of_nat (length (pre ++ [v]))).
    { rewrite length_app. simpl. lia. }
    cbn [fold_left]. unfold argmax_step at 2.
    destruct (bv <? v) eqn:E.
    + apply Z.ltb_lt in E. rewrite Hlen, (Z.max_r bv v) by lia.
      destruct (IH (pre ++ [v]) (length pre) v) as (bi' & Hfold & Hfirst').
      * split.
        -- rewrite nth_error_app2 by lia. now rewrite Nat.sub_diag.
        -- intros j c Hj Hc. rewrite nth_error_app1 in Hc by lia.
           apply nth_error_In in Hc.
           rewrite Forall_forall in Hall. specialize (Hall c Hc). lia.
      * apply Forall_app. split.
        -- eapply Forall_impl; [| exact Hall]. simpl. intros; lia.
        -- constructor; [lia | constructor].
      * exists bi'. now rewrite <- app_assoc in Hfold, Hfirst'.
    + apply Z.ltb_ge in E. rewrite Hlen, (Z.max_l bv v) by lia.
      destruct (IH (pre ++ [v]) bi bv) as (bi' & Hfold & Hfirst').
      * destruct Hfirst as [Hnth Hbefore]. split.
        -- now rewrite nth_error_app1 by lia.
        -- intros j c Hj Hc. rewrite nth_error_app1 in Hc by lia. eauto.
      * apply Forall_app. split; [exact Hall |].
        constructor; [lia | constructor].
      * exists bi'. now rewrite <- app_assoc in Hfold, Hfirst'.
Qed.

Lemma np_argmax_first (l : list Z) :
  l <> [] ->
  exists i, np_argmax l = Z.of_nat i /\ first_at (np_max l) l i.
Proof.
  destruct l as [| x rest]; [congruence | intros _].
  destruct (argmax_scan rest [x] 0%nat x) as (i & Hfold & Hfirst).
  - split; [reflexivity | intros j c Hj; lia].
  - constructor; [lia | constructor].
  - exists i. unfold np_argmax, np_max.
    change (Z.of_nat 0) with 0 in Hfold.
    change (Z.of_nat (length [x])) with 1 in Hfold.
    rewrite Hfold. split; [reflexivity | exact Hfirst].
Qed.

(** ** The stride filter *)

Lemma visited_survives (frame_step_ : Z) (det : Detection) :
  1 <= frame_step_ -> visited frame_step_ det = survives frame_step_ det.
Proof.
  intro H. unfold visited, skipped, survives.
  destruct (1 <? frame_step_) eqn:E.
  - simpl. apply negb_involutive.
  - apply Z.ltb_ge in E. assert (frame_step_ = 1) as -> by lia.
    now rewrite Z.mod_1_r.
Qed.

Lemma pass_frames_survives (frame_step_ : Z) (cache : list Detection) :
  1 <= frame_step_ ->
  pass_frames frame_step_ cache = filter (survives frame_step_) cache.
Proof.
  intro H. unfold pass_frames. apply filter_ext.
  intro det. now apply visited_survives.
Qed.

Lemma pass_frames_every (cache : list Detection) : pass_frames 1 cache = cache.
Proof.
  unfold pass_frames. induction cache as [| det rest IH]; trivial.
  cbn [filter]. change (visited 1 det) with true. cbv iota.
  f_equal. exact IH.
Qed.

(** ** From the cache check to the summary *)

Lemma list_eq_dec_nil {A : Type} (l : list A) : {l = []} + {l <> []}.
Proof.
  destruct l; [now left | right; discriminate].
Qed.

Lemma analyze_nonempty (ppt : Polygon -> Point -> option Z) (now : DateTime)
  (user zid : string) (zone : Zone) (cache : list Detection) (fps_ : Q)
  (frame_step_ : Z) :
  cache <> [] ->
  analyze ppt now user zid zone cache fps_ frame_step_ =
  bind (run_loop ppt (z_polygon zone) fps_ frame_step_ cache loop_start)
       (fun st =>
          match counts st with
          | [] => Err NoFramesMatched
          | _ :: _ =>
              Ok {| zone_id := zid;
                    zone_name := z_zone_name zone;
                    frames_analyzed := Z.of_nat (length (counts st));
                    frame_step := frame_step_;
                    fps := fps_;
                    duration := last (stamps st) 0%Q;
                    avg_count := np_mean (counts st);
                    min_count := np_min (counts st);
                    peak_count := np_max (counts st);
                    peak_time :=
                      if np_argmax (counts st) <? Z.of_nat (length (stamps st))
                      then nth (Z.to_nat (np_argmax (counts st))) (stamps st) 0%Q
                      else 0%Q;
                    total_count := np_max (counts st);
                    total_persons_passed :=
                      Z.of_nat (length (tracked_persons (tracker st)));
                    counts_per_frame := counts st;
                    timestamps := stamps st;
                    analyzed_at := now;
                    analyzed_by := user |}
          end).
Proof.
  destruct cache; [congruence | reflexivity].
Qed.

Section Analyze.

Variable ppt : Polygon -> Point -> option Z.
Variables (now : DateTime) (user zid : string) (zone : Zone).
Variables (cache : list Detection) (fps_ : Q) (frame_step_ : Z).

Local Abbreviation frames := (pass_frames frame_step_ cache).
Local Abbreviation cs := (map (occupancy ppt (z_polygon zone)) frames).
Local Abbreviation ts := (map (stamp_of fps_) frames).
Local Abbreviation final :=
  (fold_left track_item (work ppt (z_polygon zone) frame_step_ cache)
     new_tracker).

Lemma analyze_ok (r : AnalysisResult) :
  analyze ppt now user zid zone cache fps_ frame_step_ = Ok r ->
  cache <> [] /\ frames <> [] /\
  r = {| zone_id := zid;
         zone_name := z_zone_name zone;
         frames_analyzed := Z.of_nat (length cs);
         frame_step := frame_step_;
         fps := fps_;
         duration := last ts 0%Q;
         avg_count := np_mean cs;
         min_count := np_min cs;
         peak_count := np_max cs;
         peak_time := if np_argmax cs <? Z.of_nat (length ts)
                      then nth (Z.to_nat (np_argmax cs)) ts 0%Q else 0%Q;
         total_count := np_max cs;
         total_persons_passed := Z.of_nat (length (tracked_persons final));
         counts_per_frame := cs;
         timestamps := ts;
         analyzed_at := now;
         analyzed_by := user |}.
Proof.
  intro H.
  assert (Hne : cache <> []).
  { intro E. rewrite E in H. discriminate. }
  split; [exact Hne |].
  rewrite analyze_nonempty in H by exact Hne.
  destruct (run_loop ppt (z_polygon zone) fps_ frame_step_ cache loop_start)
    as [st | e] eqn:Hrun; [| discriminate].
  apply run_loop_ok in Hrun. destruct Hrun as (Hc & Hs & Ht).
  simpl in Hc, Hs, Ht. cbn [bind] in H. rewrite Hc, Hs, Ht in H.
  destruct frames as [| f fs] eqn:Hf; [discriminate |].
  injection H as <-.
  split; [discriminate | reflexivity].
Qed.

Lemma analyze_err (e : Failure) :
  analyze ppt now user zid zone cache fps_ frame_step_ = Err e ->
  (e = InsufficientData /\ cache = [])
  \/ (e = NoFramesMatched /\ cache <> [] /\ frames = [])
  \/ (e = Unhandled /\ cache <> [] /\ frames <> [] /\ Qeq_bool fps_ 0 = true).
Proof.
  intro H.
  destruct (list_eq_dec_nil cache) as [Hnil | Hne].
  - rewrite Hnil in H. injection H as <-. now left.
  - right. rewrite analyze_nonempty in H by exact Hne.
    destruct (run_loop ppt (z_polygon zone) fps_ frame_step_ cache loop_start)
      as [st | e'] eqn:Hrun.
    + apply run_loop_ok in Hrun. destruct Hrun as (Hc & _).
      simpl in Hc. cbn [bind] in H. rewrite Hc in H.
      destruct frames as [| f fs] eqn:Hf; simpl in H; [| discriminate].
      injection H as <-. left. auto.
    + apply run_loop_err in Hrun. destruct Hrun as (-> & Hfps & Hfr).
      cbn [bind] in H. injection H as <-. right. auto.
Qed.

Lemma analyze_total :
  cache <> [] -> frames <> [] -> Qeq_bool fps_ 0 = false ->
  exists r, analyze ppt now user zid zone cache fps_ frame_step_ = Ok r.
Proof.
  intros Hc Hf Hfps.
  destruct (analyze ppt now user zid zone cache fps_ frame_step_)
    as [r | e] eqn:E; [now exists r |].
  apply analyze_err in E.
  destruct E as [(_ & E) | [(_ & _ & E) | (_ & _ & _ & E)]]; congruence.
Qed.

Lemma analyze_no_frames :
  cache <> [] -> frames = [] ->
  analyze ppt now user zid zone cache fps_ frame_step_ = Err NoFramesMatched.
Proof.
  intros Hc Hf.
  destruct (analyze ppt now user zid zone cache fps_ frame_step_)
    as [r | e] eqn:E.
  - apply analyze_ok in E. tauto.
  - apply analyze_err in E.
    destruct E as [(_ & E) | [(-> & _) | (_ & _ & E & _)]];
      [congruence | reflexivity | congruence].
Qed.

End Analyze.

(** ** Aggregates of a successful analysis *)

(** C1. When the analysis succeeds, the average times the number of counts
    is the sum of the counts; the peak is the largest count and the minimum
    the smallest; the peak time is the timestamp at the first index where
    the peak occurs; and the total count is the peak count. *)
Theorem aggregates (ppt : Polygon -> Point -> option Z) (now : DateTime)
  (user zid : string) (zone : Zone) (cache : list Detection) (fps_ : Q)
  (frame_step_ : Z) (r : AnalysisResult) :
  analyze ppt now user zid zone cache fps_ frame_step_ = Ok r ->
  (avg_count r * inject_Z (Z.of_nat (length (counts_per_frame r)))
   == inject_Z (Zsum (counts_per_frame r)))%Q
  /\ is_max (peak_count r) (counts_per_frame r)
  /\ is_min (min_count r) (counts_per_frame r)
  /\ (exists i, first_at (peak_count r) (counts_per_frame r) i
                /\ nth_error (timestamps r) i = Some (peak_time r))
  /\ total_count r = peak_count r.
Proof.
  intro H. apply analyze_ok in H. destruct H as (_ & Hf & ->).
  cbn [avg_count counts_per_frame peak_count min_count timestamps peak_time
       total_count].
  set (frames := pass_frames frame_step_ cache) in *.
  set (cs := map (occupancy ppt (z_polygon zone)) frames).
  set (ts := map (stamp_of fps_) frames).
  assert (Hcs : cs <> []).
  { subst cs. destruct frames; [congruence | discriminate]. }
  split; [now apply np_mean_spec |].
  split; [now apply np_max_is_max |].
  split; [now apply np_min_is_min |].
  split; [| reflexivity].
  destruct (np_argmax_first cs Hcs) as (i & Hi & Hfirst).
  exists i. split; [exact Hfirst |].
  assert (Hlt : (i < length ts)%nat).
  { subst ts cs. rewrite length_map.
    destruct Hfirst as [Hn _].
    assert (Hs : nth_error (map (occupancy ppt (z_polygon zone)) frames) i
                 <> None) by congruence.
    apply nth_error_Some in Hs. now rewrite length_map in Hs. }
  rewrite Hi.
  replace (Z.of_nat i <? Z.of_nat (length ts)) with true
    by (symmetry; apply Z.ltb_lt; lia).
  rewrite Nat2Z.id. now apply nth_error_nth'.
Qed.

(** C1 on the two-frame cache: counts 2 and 1, peak 2 at the first stamp. *)
Lemma aggregates_witness :
  exists r,
    analyze crossing_test 7 "ann" "z1" door two_frames 25 1 = Ok r
    /\ counts_per_frame r = [2; 1]
    /\ is_max (peak_count r) (counts_per_frame r)
    /\ total_count r = peak_count r.
Proof.
  eexists. split; [reflexivity |]. split; [reflexivity |].
  pose proof (aggregates crossing_test 7 "ann" "z1" door two_frames 25 1 _
                eq_refl) as (_ & Hmax & _ & _ & Htot).
  split; [exact Hmax | exact Htot].
Defined.

(** C5. A result has as many counts as timestamps, and when the counts are
    not empty the peak count is their maximum. *)
Theorem result_invariant (ppt : Polygon -> Point -> option Z) (now : DateTime)
  (user zid : string) (zone : Zone) (cache : list Detection) (fps_ : Q)
  (frame_step_ : Z) (r : AnalysisResult) :
  analyze ppt now user zid zone cache fps_ frame_step_ = Ok r ->
  length (counts_per_frame r) = length (timestamps r)
  /\ (counts_per_frame r <> [] ->
      is_max (peak_count r) (counts_per_frame r)).
Proof.
  intro H. apply analyze_ok in H. destruct H as (_ & _ & ->).
  cbn [counts_per_frame timestamps peak_count].
  split.
  - now rewrite !length_map.
  - apply np_max_is_max.
Qed.

(** C5 on the two-frame cache with stride 5: two counts, two timestamps,
    and the peak is their maximum. *)
Lemma result_invariant_witness :
  exists r,
    analyze crossing_test 7 "ann" "z1" door two_frames 25 5 = Ok r
    /\ length (counts_per_frame r) = length (timestamps r)
    /\ is_max (peak_count r) (counts_per_frame r).
Proof.
  eexists. split; [reflexivity |].
  destruct (result_invariant crossing_test 7 "ann" "z1" door two_frames
              25 5 _ eq_refl) as (Hlen & Hmax).
  split; [exact Hlen |].
  apply Hmax. discriminate.
Defined.

(** C3. The counts of a result are, frame by frame and in stored order, the
    number of boxes of each visited frame that unpack to four coordinates
    and whose floor-divided centroid passes the point-in-polygon test; the
    count of a frame depends on that frame's boxes alone. *)
Theorem frame_occupancy (ppt : Polygon -> Point -> option Z) (now : DateTime)
  (user zid : string) (zone : Zone) (cache : list Detection) (fps_ : Q)
  (frame_step_ : Z) (r : AnalysisResult) :
  analyze ppt now user zid zone cache fps_ frame_step_ = Ok r ->
  counts_per_frame r =
  map (fun det =>
         Z.of_nat (length (filter (in_zone ppt (z_polygon zone)) (boxes det))))
      (pass_frames frame_step_ cache).
Proof.
  intro H. apply analyze_ok in H. destruct H as (_ & _ & ->). reflexivity.
Qed.

(** C3 on the two-frame cache: two boxes in the zone, then one. *)
Lemma frame_occupancy_witness :
  exists r,
    analyze crossing_test 7 "ann" "z1" door two_frames 25 1 = Ok r
    /\ counts_per_frame r =
       map (fun det =>
              Z.of_nat (length (filter (in_zone crossing_test square)
                                       (boxes det))))
           two_frames.
Proof.
  eexists. split; [reflexivity |].
  exact (frame_occupancy crossing_test 7 "ann" "z1" door two_frames 25 1 _
           eq_refl).
Defined.

(** ** The stride filter and its failure *)

(** C4, for a cache that is not empty. With a stride of at least 1 the loop
    visits an entry exactly when its frame index is a multiple of the
    stride, and a stride of 1 keeps every entry; the failure is
    [NoFramesMatched] exactly when no frame is kept; every result carries
    one count per kept frame, in stored order, zero counts included; and
    with a frame rate other than zero a kept frame always leads to a
    result. *)
Theorem stride_filter (ppt : Polygon -> Point -> option Z) (now : DateTime)
  (user zid : string) (zone : Zone) (cache : list Detection) (fps_ : Q)
  (frame_step_ : Z) :
  cache <> [] -> 1 <= frame_step_ ->
  (forall det, visited frame_step_ det = true <->
               frame det mod frame_step_ = 0)
  /\ filter (survives 1) cache = cache
  /\ (analyze ppt now user zid zone cache fps_ frame_step_
        = Err NoFramesMatched
      <-> filter (survives frame_step_) cache = [])
  /\ (forall r,
        analyze ppt now user zid zone cache fps_ frame_step_ = Ok r ->
        counts_per_frame r =
          map (occupancy ppt (z_polygon zone))
              (filter (survives frame_step_) cache)
        /\ frames_analyzed r =
          Z.of_nat (length (filter (survives frame_step_) cache)))
  /\ (filter (survives frame_step_) cache <> [] -> ~ (fps_ == 0)%Q ->
      exists r, analyze ppt now user zid zone cache fps_ frame_step_ = Ok r).
Proof.
  intros Hne Hstep.
  split.
  { intro det. rewrite visited_survives by trivial.
    unfold survives. apply Z.eqb_eq. }
  rewrite <- (pass_frames_survives frame_step_ cache Hstep).
  rewrite <- (pass_frames_survives 1 cache) by lia.
  split; [apply pass_frames_every |].
  split; [split |].
  - intro H. apply analyze_err in H.
    destruct H as [(H & _) | [(_ & _ & H) | (H & _)]];
      [discriminate | exact H | discriminate].
  - intro H. now apply analyze_no_frames.
  - split.
    + intros r H. apply analyze_ok in H. destruct H as (_ & _ & ->).
      cbn [counts_per_frame frames_analyzed]. now rewrite length_map.
    + intros Hkept Hfps. apply analyze_total; trivial.
      destruct (Qeq_bool fps_ 0) eqn:E; trivial.
      apply Qeq_bool_iff in E. contradiction.
Qed.

(** C4 on the two-frame cache with stride 5: frames 0 and 5 are both kept
    and the analysis gives a result with two counts. *)
Lemma stride_filter_witness :
  two_frames <> [] /\ 1 <= 5 /\
  exists r, analyze crossing_test 7 "ann" "z1" door two_frames 25 5 = Ok r
            /\ frames_analyzed r = 2.
Proof.
  assert (Hne : two_frames <> []) by discriminate.
  assert (Hstep : 1 <= 5) by lia.
  split; [exact Hne | split; [exact Hstep |]].
  destruct (stride_filter crossing_test 7 "ann" "z1" door two_frames 25 5
              Hne Hstep) as (_ & _ & _ & Hcounts & Hresult).
  destruct Hresult as (r & Hr); [discriminate | discriminate |].
  exists r. split; [exact Hr |].
  exact (proj2 (Hcounts r Hr)).
Defined.

(** C4 as first stated fails on the empty cache: no frame survives the
    filter, yet the failure is [InsufficientData]. *)
Lemma stride_filter_empty_cache :
  analyze crossing_test 7 "ann" "z1" door [] 25 1 = Err InsufficientData
  /\ ~ (analyze crossing_test 7 "ann" "z1" door [] 25 1 = Err NoFramesMatched
        <-> filter (survives 1) ([] : list Detection) = []).
Proof.
  split; [reflexivity |].
  intros [_ H]. specialize (H eq_refl). discriminate.
Qed.

(** ** The empty cache *)

(** C9. On an empty cache the analysis fails with [InsufficientData],
    whatever the polygon, the oracle, the frame rate and the stride; a
    request against a feed with an empty cache produces no result and
    leaves the feed document as it was, and its failure is
    [InsufficientData] as soon as it names a zone of the feed. *)
Theorem empty_cache_insufficient (ppt : Polygon -> Point -> option Z)
  (env : Env) (user : string) (data : Request) (feed_obj : Feed)
  (zid : string) (zone : Zone) :
  detections_cache feed_obj = [] ->
  (forall now fps_ frame_step_,
     analyze ppt now user zid zone [] fps_ frame_step_ = Err InsufficientData)
  /\ (exists e, analyze_zone ppt env user data feed_obj = (Err e, feed_obj))
  /\ (req_zone_id data = Some zid -> zid <> EmptyString ->
      find (fun z => String.eqb (z_zone_id z) zid) (zones feed_obj) = Some zone ->
      analyze_zone ppt env user data feed_obj = (Err InsufficientData, feed_obj)).
Proof.
  intro Hempty. split; [reflexivity |].
  unfold analyze_zone. rewrite Hempty. split.
  - destruct (req_zone_id data) as [z |]; [| eauto].
    destruct (String.eqb z EmptyString); [eauto |].
    destruct (find _ (zones feed_obj)); eexists; reflexivity.
  - intros -> Hz ->.
    apply String.eqb_neq in Hz. now rewrite Hz.
Qed.

(** C9 on the unprocessed feed. *)
Lemma empty_cache_insufficient_witness :
  detections_cache unprocessed = [] /\
  analyze_zone crossing_test morning "ann" (ask (Some 1)) unprocessed
  = (Err InsufficientData, unprocessed).
Proof.
  split; [reflexivity |].
  apply (empty_cache_insufficient crossing_test morning "ann" (ask (Some 1))
           unprocessed "z1" door eq_refl).
  - reflexivity.
  - discriminate.
  - reflexivity.
Defined.

(** ** The requested stride *)

(** C10. A requested stride below 1 is not refused: the handler answers, and
    leaves the feed, exactly as for the stride 1. *)
Theorem frame_step_coerced (ppt : Polygon -> Point -> option Z) (env : Env)
  (user : string) (zid : option string) (s : Z) (feed_obj : Feed) :
  s < 1 ->
  analyze_zone ppt env user
    {| req_zone_id := zid; req_frame_step := Some s |} feed_obj
  = analyze_zone ppt env user
      {| req_zone_id := zid; req_frame_step := Some 1 |} feed_obj.
Proof.
  intro Hs. unfold analyze_zone. cbn [req_zone_id req_frame_step].
  replace (s <? 1) with true by (symmetry; apply Z.ltb_lt; lia).
  reflexivity.
Qed.

(** C10 on the corridor feed with the stride -3. *)
Lemma frame_step_coerced_witness :
  -3 < 1 /\
  exists r feed',
    analyze_zone crossing_test morning "ann" (ask (Some (-3))) corridor
    = (Ok r, feed') /\ frame_step r = 1 /\
    analyze_zone crossing_test morning "ann" (ask (Some 1)) corridor
    = (Ok r, feed').
Proof.
  assert (H : -3 < 1) by lia.
  split; [exact H |].
  pose proof (frame_step_coerced crossing_test morning "ann" (Some "z1"%string)
                (-3) corridor H) as E.
  unfold ask. rewrite E.
  eexists. eexists. split; [reflexivity |].
  split; reflexivity.
Defined.

(** ** Repeated calls *)

Lemma analyze_stamp (ppt : Polygon -> Point -> option Z) (now now' : DateTime)
  (user zid : string) (zone : Zone) (cache : list Detection) (fps_ : Q)
  (frame_step_ : Z) :
  analyze ppt now' user zid zone cache fps_ frame_step_ =
  match analyze ppt now user zid zone cache fps_ frame_step_ with
  | Ok r => Ok (with_analyzed_at now' r)
  | Err e => Err e
  end.
Proof.
  unfold analyze. destruct cache as [| det rest]; trivial.
  destruct (run_loop ppt (z_polygon zone) fps_ frame_step_ (det :: rest)
              loop_start) as [st | e]; trivial.
  cbn [bind]. destruct (counts st); reflexivity.
Qed.

(** C6, as the handler has it. Two calls on the same request and feed fail
    alike or both succeed; the stamp of a result is the handler's own first
    clock reading, and the second result is the first one with the stamp
    replaced by the second call's reading: every other field is equal. *)
Theorem repeatable_up_to_stamp (ppt : Polygon -> Point -> option Z)
  (env1 env2 : Env) (user : string) (data : Request) (feed_obj : Feed) :
  match fst (analyze_zone ppt env1 user data feed_obj),
        fst (analyze_zone ppt env2 user data feed_obj) with
  | Ok r1, Ok r2 =>
      analyzed_at r1 = utcnow_summary env1
      /\ r2 = with_analyzed_at (utcnow_summary env2) r1
  | Err e1, Err e2 => e1 = e2
  | _, _ => False
  end.
Proof.
  unfold analyze_zone.
  destruct (req_zone_id data) as [z |]; [| reflexivity].
  destruct (String.eqb z EmptyString); [reflexivity |].
  destruct (find _ (zones feed_obj)) as [zone |]; [| reflexivity].
  set (fps_ := match summary_fps feed_obj with Some f => f | None => 10%Q end).
  set (st := if _ <? 1 then 1 else _).
  rewrite (analyze_stamp ppt (utcnow_summary env1) (utcnow_summary env2)).
  destruct (analyze ppt (utcnow_summary env1) user z zone
              (detections_cache feed_obj) fps_ st) as [r | e] eqn:E;
    cbn [fst]; [| reflexivity].
  split; [| reflexivity].
  apply analyze_ok in E. destruct E as (_ & _ & ->). reflexivity.
Qed.

(** C6 as first stated fails: the same request on the same feed, answered
    at two different times, gives two different results. *)
Lemma two_calls_differ :
  fst (analyze_zone crossing_test morning "ann" (ask (Some 1)) corridor)
  <> fst (analyze_zone crossing_test evening "ann" (ask (Some 1)) corridor).
Proof.
  vm_compute. intro H. injection H as H. discriminate.
Qed.

(** ** The matching loop *)

Section Matching.

Variables (frame_idx : Z) (box : Box).

Lemma window_test (p : TrackedPerson) :
  (last_frame p >=? frame_idx - 10) = in_window frame_idx p.
Proof.
  unfold in_window.
  destruct (frame_idx - last_frame p <=? 10) eqn:E.
  - apply Z.leb_le in E. apply Z.geb_le. lia.
  - apply Z.leb_gt in E. rewrite Z.geb_leb. apply Z.leb_gt. lia.
Qed.

Lemma candidates_snoc_out (seen : list TrackedPerson) (x : TrackedPerson) :
  in_window frame_idx x = false ->
  candidates frame_idx (seen ++ [x]) = candidates frame_idx seen.
Proof.
  intro H. unfold candidates. rewrite filter_app. simpl. rewrite H.
  apply app_nil_r.
Qed.

Lemma candidates_snoc_in (seen : list TrackedPerson) (x q : TrackedPerson) :
  in_window frame_idx x = true ->
  In q (candidates frame_idx (seen ++ [x])) ->
  In q (candidates frame_idx seen) \/ q = x.
Proof.
  intro H. unfold candidates. rewrite filter_app. simpl. rewrite H.
  intro Hq. apply in_app_or in Hq. destruct Hq as [Hq | [Hq | []]]; auto.
Qed.

Lemma consider_keeps (seen : list TrackedPerson) (m : BestMatch)
  (x : TrackedPerson) :
  best_so_far frame_idx box seen m ->
  best_so_far frame_idx box (seen ++ [x]) (consider frame_idx box m x).
Proof.
  intro Hm. unfold consider. rewrite window_test.
  destruct (in_window frame_idx x) eqn:Hwin.
  2:{ destruct Hm as [(H1 & H2 & H3 & H4) | (H1 & before & p & after & Hs & H)].
      - left. rewrite candidates_snoc_out by trivial. auto.
      - right. split; trivial. exists before, p, (after ++ [x]).
        rewrite candidates_snoc_out by trivial.
        split; [| exact H]. rewrite Hs, <- app_assoc. reflexivity. }
  fold (overlap box x).
  destruct (Qgt_bool (overlap box x) iou_threshold) eqn:Hthr;
    [destruct (Qgt_bool (overlap box x) (best_iou m)) eqn:Hbest |]; cbn [andb].
  - (* a better candidate *)
    apply Qgt_bool_iff in Hthr, Hbest.
    right. split; trivial. exists seen, x, []. cbn [best_match_id best_iou].
    repeat split; trivial.
    + intros q Hq. apply candidates_snoc_in in Hq; trivial.
      destruct Hq as [Hq | ->]; [| lra].
      destruct Hm as [(_ & _ & _ & H) | (_ & b & p & a & _ & _ & _ & Hb & _ & H & _)].
      * specialize (H q Hq). lra.
      * specialize (H q Hq). rewrite Hb in Hbest. lra.
    + intros q Hq.
      destruct Hm as [(_ & _ & _ & H) | (_ & b & p & a & _ & _ & _ & Hb & _ & H & _)].
      * specialize (H q Hq). lra.
      * specialize (H q Hq). rewrite Hb in Hbest. lra.
  - (* above the threshold, not above the best *)
    apply Qgt_bool_iff in Hthr. apply Qgt_bool_false_iff in Hbest.
    destruct Hm as [(H1 & H2 & H3 & H4) | (H1 & before & p & after & Hs & Hw & Hid & Hb & Ht & Hall & Hbef)].
    + rewrite H3 in Hbest. unfold iou_threshold in Hthr. lra.
    + right. split; trivial. exists before, p, (after ++ [x]).
      repeat split; trivial.
      * rewrite Hs, <- app_assoc. reflexivity.
      * intros q Hq. apply candidates_snoc_in in Hq; trivial.
        destruct Hq as [Hq | ->]; [auto |]. rewrite Hb in Hbest. exact Hbest.
  - (* not above the threshold *)
    apply Qgt_bool_false_iff in Hthr.
    destruct Hm as [(H1 & H2 & H3 & H4) | (H1 & before & p & after & Hs & Hw & Hid & Hb & Ht & Hall & Hbef)].
    + left. repeat split; trivial.
      intros q Hq. apply candidates_snoc_in in Hq; trivial.
      destruct Hq as [Hq | ->]; auto.
    + right. split; trivial. exists before, p, (after ++ [x]).
      repeat split; trivial.
      * rewrite Hs, <- app_assoc. reflexivity.
      * intros q Hq. apply candidates_snoc_in in Hq; trivial.
        destruct Hq as [Hq | ->]; [auto | lra].
Qed.

Lemma find_match_best (persons : list TrackedPerson) :
  best_so_far frame_idx box persons (find_match frame_idx box persons).
Proof.
  unfold find_match.
  induction persons as [| x seen IH] using rev_ind.
  - left. simpl. repeat split. intros q [].
  - rewrite fold_left_app. simpl. now apply consider_keeps.
Qed.

Lemma find_match_has_match (persons : list TrackedPerson) :
  matched (find_match frame_idx box persons) = has_match frame_idx box persons.
Proof.
  unfold has_match.
  destruct (find_match_best persons)
    as [(H1 & _ & _ & H) | (H1 & before & p & after & Hs & Hw & _ & _ & Ht & _)].
  - rewrite H1. symmetry. apply not_true_is_false. intro E.
    apply existsb_exists in E. destruct E as (q & Hq & Hgt).
    apply Qgt_bool_iff in Hgt. specialize (H q Hq). lra.
  - rewrite H1. symmetry. apply existsb_exists. exists p. split.
    + unfold candidates. apply filter_In. split; trivial.
      rewrite Hs. apply in_elt.
    + now apply Qgt_bool_iff.
Qed.

End Matching.

(** ** The update loop and the ids *)

Lemma update_person_at (box : Box) (frame_idx : Z)
  (before after : list TrackedPerson) (p : TrackedPerson) :
  ~ In (person_id p) (map person_id before) ->
  update_person (person_id p) box frame_idx (before ++ p :: after)
  = before ++ refreshed box frame_idx p :: after.
Proof.
  induction before as [| q before IH]; intro Hnot; simpl.
  - now rewrite Z.eqb_refl.
  - simpl in Hnot.
    destruct (person_id q =? person_id p) eqn:E.
    + apply Z.eqb_eq in E. tauto.
    + f_equal. apply IH. tauto.
Qed.

Lemma update_person_ids (best : Z) (box : Box) (frame_idx : Z)
  (persons : list TrackedPerson) :
  map person_id (update_person best box frame_idx persons)
  = map person_id persons.
Proof.
  induction persons as [| q persons IH]; simpl; trivial.
  destruct (person_id q =? best); simpl; [reflexivity | now rewrite IH].
Qed.

Lemma update_person_last (best : Z) (box : Box) (frame_idx : Z)
  (persons : list TrackedPerson) (q : TrackedPerson) :
  In q (update_person best box frame_idx persons) ->
  In q persons \/ last_frame q = frame_idx.
Proof.
  induction persons as [| x persons IH]; simpl; [tauto |].
  destruct (person_id x =? best); simpl.
  - intros [<- | H]; auto.
  - intros [<- | H]; auto. destruct (IH H); auto.
Qed.

Lemma numbered_nodup (tr : Tracker) :
  numbered tr -> NoDup (map person_id (tracked_persons tr)).
Proof.
  intros [H _]. rewrite H. apply NoDup_map_NoDup_ForallPairs.
  - intros x y _ _. apply Nat2Z.inj.
  - apply seq_NoDup.
Qed.

Lemma numbered_new : numbered new_tracker.
Proof.
  split; reflexivity.
Qed.

Section Step.

Variables (frame_idx : Z) (box : Box) (tr : Tracker).
Hypothesis Hnum : numbered tr.

Lemma track_box_tracks : tracks frame_idx box tr (track_box frame_idx tr box).
Proof.
  unfold track_box.
  destruct (find_match_best frame_idx box (tracked_persons tr))
    as [(H1 & H2 & _ & H) |
        (H1 & before & p & after & Hs & Hw & Hid & _ & Ht & Hall & Hbef)].
  - rewrite H1. now apply tracks_new.
  - rewrite H1, Hid, Hs, update_person_at.
    + now apply tracks_match.
    + pose proof (numbered_nodup tr Hnum) as Hnd.
      rewrite Hs, map_app in Hnd. simpl in Hnd.
      apply NoDup_remove_2 in Hnd. intro Hin. apply Hnd.
      apply in_or_app. now left.
Qed.

Lemma track_box_length :
  length (tracked_persons (track_box frame_idx tr box))
  = (length (tracked_persons tr)
     + (if has_match frame_idx box (tracked_persons tr) then 0 else 1))%nat.
Proof.
  rewrite <- find_match_has_match.
  pose proof (f_equal (@length _)
                (update_person_ids
                   (match best_match_id
                            (find_match frame_idx box (tracked_persons tr))
                    with Some b => b | None => 0 end)
                   box frame_idx (tracked_persons tr))) as Hlen.
  rewrite !length_map in Hlen.
  unfold track_box.
  destruct (find_match_best frame_idx box (tracked_persons tr))
    as [(H1 & H2 & _) | (H1 & before & p & after & _ & _ & Hid & _)].
  - rewrite H1. cbn [tracked_persons]. rewrite length_app. reflexivity.
  - rewrite H1, Hid in *. cbn [tracked_persons]. lia.
Qed.

Lemma update_person_length (best : Z) :
  length (update_person best box frame_idx (tracked_persons tr))
  = length (tracked_persons tr).
Proof.
  rewrite <- (length_map person_id), update_person_ids. apply length_map.
Qed.

Lemma numbered_update (best : Z) :
  numbered {| tracked_persons :=
                update_person best box frame_idx (tracked_persons tr);
              next_person_id := next_person_id tr |}.
Proof.
  destruct Hnum as [Hids Hnext].
  split; cbn [tracked_persons next_person_id].
  - now rewrite update_person_ids, update_person_length.
  - now rewrite update_person_length.
Qed.

Lemma numbered_append :
  numbered {| tracked_persons :=
                tracked_persons tr ++
                [{| person_id := next_person_id tr;
                    first_frame := frame_idx;
                    last_frame := frame_idx;
                    last_box := box |}];
              next_person_id := next_person_id tr + 1 |}.
Proof.
  destruct Hnum as [Hids Hnext].
  split; cbn [tracked_persons next_person_id].
  - rewrite map_app, length_app, Nat.add_comm. cbn [length Nat.add].
    rewrite seq_S, map_app, <- Hids. cbn [map person_id Nat.add].
    now rewrite Hnext.
  - rewrite length_app. cbn [length]. lia.
Qed.

Lemma track_box_numbered : numbered (track_box frame_idx tr box).
Proof.
  unfold track_box.
  destruct (matched (find_match frame_idx box (tracked_persons tr)));
    [| apply numbered_append].
  destruct (best_match_id (find_match frame_idx box (tracked_persons tr)));
    [apply numbered_update | apply numbered_append].
Qed.

End Step.

(** ** The tracker over a whole pass *)

Lemma fold_numbered (w : list (Z * Box)) : forall tr,
  numbered tr -> numbered (fold_left track_item w tr).
Proof.
  induction w as [| item w IH]; intros tr Hnum; trivial.
  simpl. apply IH. now apply track_box_numbered.
Qed.

Lemma fold_creations (w : list (Z * Box)) : forall tr,
  numbered tr ->
  length (tracked_persons (fold_left track_item w tr))
  = (length (tracked_persons tr) + creations w tr)%nat.
Proof.
  induction w as [| item w IH]; intros tr Hnum; simpl.
  - lia.
  - rewrite IH by now apply track_box_numbered.
    unfold track_item at 1. rewrite track_box_length by trivial. lia.
Qed.

Lemma track_box_last (frame_idx : Z) (box : Box) (tr : Tracker)
  (q : TrackedPerson) :
  In q (tracked_persons (track_box frame_idx tr box)) ->
  In q (tracked_persons tr) \/ last_frame q = frame_idx.
Proof.
  assert (Happ : In q (tracked_persons tr ++
                       [{| person_id := next_person_id tr;
                           first_frame := frame_idx;
                           last_frame := frame_idx;
                           last_box := box |}]) ->
                 In q (tracked_persons tr) \/ last_frame q = frame_idx).
  { intro H. apply in_app_or in H. destruct H as [H | [<- | []]]; auto. }
  unfold track_box.
  destruct (matched _); [| exact Happ].
  destruct (best_match_id _); [| exact Happ].
  apply update_person_last.
Qed.

Lemma fold_last_frames (P : Z -> Prop) (w : list (Z * Box)) : forall tr,
  (forall p, In p (tracked_persons tr) -> P (last_frame p)) ->
  (forall item, In item w -> P (fst item)) ->
  forall p, In p (tracked_persons (fold_left track_item w tr)) ->
            P (last_frame p).
Proof.
  induction w as [| item w IH]; intros tr Htr Hw; trivial.
  simpl. apply IH.
  - intros p Hp. apply track_box_last in Hp. destruct Hp as [Hp | ->]; auto.
    apply Hw. now left.
  - intros it Hit. apply Hw. now right.
Qed.

(** ** Caches in ascending frame order *)

Lemma sorted_app (l1 l2 : list Z) :
  StronglySorted Z.le l1 -> StronglySorted Z.le l2 ->
  (forall a b, In a l1 -> In b l2 -> a <= b) ->
  StronglySorted Z.le (l1 ++ l2).
Proof.
  induction l1 as [| x l1 IH]; intros H1 H2 H; simpl; trivial.
  inversion H1 as [| ? ? Hs Hall]; subst.
  constructor.
  - apply IH; trivial. intros a b Ha Hb. apply H; [now right | trivial].
  - apply Forall_app. split; trivial.
    apply Forall_forall. intros b Hb. apply H; [now left | trivial].
Qed.

Lemma sorted_before (l1 l2 : list Z) (x : Z) :
  StronglySorted Z.le (l1 ++ x :: l2) -> Forall (fun a => a <= x) l1.
Proof.
  induction l1 as [| a l1 IH]; simpl; intro H; constructor.
  - inversion H as [| ? ? _ Hall]; subst.
    rewrite Forall_forall in Hall. apply Hall. apply in_elt.
  - apply IH. now inversion H.
Qed.

Lemma sorted_constant (f : Z) (bs : list Box) :
  StronglySorted Z.le (map fst (map (pair f) bs)).
Proof.
  induction bs as [| b bs IH]; simpl; constructor; trivial.
  apply Forall_forall. intros x Hx.
  apply in_map_iff in Hx. destruct Hx as (w & <- & Hw).
  apply in_map_iff in Hw. destruct Hw as (b' & <- & _). simpl. lia.
Qed.

Lemma work_cons (ppt : Polygon -> Point -> option Z) (polygon : Polygon)
  (frame_step_ : Z) (det : Detection) (rest : list Detection) :
  work ppt polygon frame_step_ (det :: rest)
  = (if visited frame_step_ det
     then map (pair (frame det)) (zone_boxes ppt polygon (boxes det))
     else [])
    ++ work ppt polygon frame_step_ rest.
Proof.
  unfold work, pass_frames. cbn [filter].
  destruct (visited frame_step_ det); reflexivity.
Qed.

Lemma work_frames (ppt : Polygon -> Point -> option Z) (polygon : Polygon)
  (frame_step_ : Z) (cache : list Detection) (item : Z * Box) :
  In item (work ppt polygon frame_step_ cache) ->
  In (fst item) (map frame cache).
Proof.
  induction cache as [| det rest IH]; [intros [] |].
  rewrite work_cons. intro H. apply in_app_or in H. destruct H as [H | H].
  - left. destruct (visited frame_step_ det); [| destruct H].
    apply in_map_iff in H. now destruct H as (b & <- & _).
  - right. auto.
Qed.

Lemma work_sorted (ppt : Polygon -> Point -> option Z) (polygon : Polygon)
  (frame_step_ : Z) (cache : list Detection) :
  StronglySorted Z.le (map frame cache) ->
  StronglySorted Z.le (map fst (work ppt polygon frame_step_ cache)).
Proof.
  induction cache as [| det rest IH]; intro H; [constructor |].
  simpl in H. inversion H as [| ? ? Hs Hall]; subst.
  rewrite work_cons, map_app. apply sorted_app; auto.
  - destruct (visited frame_step_ det); [apply sorted_constant | constructor].
  - intros a b Ha Hb.
    assert (a = frame det) as ->.
    { destruct (visited frame_step_ det); [| destruct Ha].
      apply in_map_iff in Ha. destruct Ha as (w & <- & Hw).
      apply in_map_iff in Hw. now destruct Hw as (b' & <- & _). }
    apply in_map_iff in Hb. destruct Hb as (w & <- & Hw).
    apply work_frames in Hw.
    rewrite Forall_forall in Hall. now apply Hall.
Qed.

(** ** Matching of in-zone boxes during a pass *)

(** C2. Take the in-zone boxes of the visited frames in arrival order.
    When a box arrives, the tracker being the result of the boxes before
    it: the next free id is the number of persons created so far; the
    candidates are the persons last seen at most 10 frame indices back (on a
    cache in ascending frame order, those within 10 frame indices); if some
    candidate overlaps the box by more than 0.3, the first candidate of
    highest overlap takes the box and the frame as its last ones and nothing
    else changes; otherwise a person is appended under the next free id.
    The number of persons passed is the number of persons so created. *)
Theorem tracking (ppt : Polygon -> Point -> option Z) (now : DateTime)
  (user zid : string) (zone : Zone) (cache : list Detection) (fps_ : Q)
  (frame_step_ : Z) (r : AnalysisResult) :
  analyze ppt now user zid zone cache fps_ frame_step_ = Ok r ->
  (forall done f box todo,
     work ppt (z_polygon zone) frame_step_ cache = done ++ (f, box) :: todo ->
     next_person_id (fold_left track_item done new_tracker)
       = Z.of_nat (creations done new_tracker)
     /\ tracks f box (fold_left track_item done new_tracker)
          (track_box f (fold_left track_item done new_tracker) box)
     /\ (StronglySorted Z.le (map frame cache) ->
         forall p,
           In p (tracked_persons (fold_left track_item done new_tracker)) ->
           in_window f p = (Z.abs (f - last_frame p) <=? 10)))
  /\ total_persons_passed r
     = Z.of_nat (length (tracked_persons
                           (fold_left track_item
                              (work ppt (z_polygon zone) frame_step_ cache)
                              new_tracker)))
  /\ total_persons_passed r
     = Z.of_nat (creations (work ppt (z_polygon zone) frame_step_ cache)
                   new_tracker).
Proof.
  intro H. apply analyze_ok in H. destruct H as (_ & _ & ->).
  cbn [total_persons_passed].
  split; [| split; [reflexivity |]].
  - intros done f box todo Hsplit.
    pose proof (fold_numbered done new_tracker numbered_new) as Hnum.
    split; [| split].
    + destruct Hnum as [_ ->].
      now rewrite fold_creations by apply numbered_new.
    + now apply track_box_tracks.
    + intros Hsorted p Hp.
      assert (Hle : last_frame p <= f).
      { apply (fold_last_frames (fun x => x <= f) done new_tracker);
          trivial; [intros q [] |].
        intros item Hitem.
        apply (work_sorted ppt (z_polygon zone) frame_step_) in Hsorted.
        rewrite Hsplit, map_app in Hsorted. simpl in Hsorted.
        apply sorted_before in Hsorted. rewrite Forall_forall in Hsorted.
        apply Hsorted. now apply in_map. }
      unfold in_window. now rewrite Z.abs_eq by lia.
  - now rewrite fold_creations by apply numbered_new.
Qed.

(** C2 on the two-frame cache: the second box of frame 0 arrives after the
    first one created person 0, overlaps it by 81/119 and is matched to it;
    one person passed. *)
Lemma tracking_witness :
  exists r,
    analyze crossing_test 7 "ann" "z1" door two_frames 25 1 = Ok r
    /\ total_persons_passed r = 1
    /\ tracks 0 (11, 11, 21, 21)
         (fold_left track_item [(0, (10, 10, 20, 20))] new_tracker)
         {| tracked_persons :=
              [{| person_id := 0; first_frame := 0; last_frame := 0;
                  last_box := (11, 11, 21, 21) |}];
            next_person_id := 1 |}
    /\ in_window 0 (newcomer 0 (10, 10, 20, 20) 0) = true.
Proof.
  eexists. split; [reflexivity |].
  pose proof (tracking crossing_test 7 "ann" "z1" door two_frames 25 1 _
                eq_refl) as (Hstep & _ & Htotal).
  split; [exact Htotal |].
  destruct (Hstep [(0, (10, 10, 20, 20))] 0 (11, 11, 21, 21)
              [(5, (10, 10, 20, 20))] eq_refl) as (_ & Htracks & Hwin).
  split; [exact Htracks |].
  apply Hwin.
  - repeat constructor; simpl; lia.
  - left. reflexivity.
Defined.

(** ** Persons passed *)

Lemma filter_none {A : Type} (f : A -> bool) (l : list A) :
  (forall x, In x l -> f x = false) -> filter f l = [].
Proof.
  induction l as [| a l IH]; intro H; trivial.
  simpl. rewrite (H a) by now left.
  apply IH. intros x Hx. apply H. now right.
Qed.

Lemma zone_boxes_none (ppt : Polygon -> Point -> option Z) (polygon : Polygon)
  (bs : list RawBox) :
  zone_boxes ppt polygon bs = [] <->
  forall box, In box bs -> in_zone ppt polygon box = false.
Proof.
  pose proof (occupancy_zone_boxes ppt polygon
                {| frame := 0; timestamp := None; boxes := bs |}) as H.
  unfold occupancy in H. cbn [boxes] in H. apply Nat2Z.inj in H.
  split.
  - intros E box Hbox. rewrite E in H. simpl in H.
    apply length_zero_iff_nil in H.
    destruct (in_zone ppt polygon box) eqn:Hz; trivial.
    assert (Hin : In box (filter (in_zone ppt polygon) bs))
      by (apply filter_In; auto).
    rewrite H in Hin. destruct Hin.
  - intro Hall. apply length_zero_iff_nil. rewrite <- H.
    now rewrite filter_none.
Qed.

Lemma work_none (ppt : Polygon -> Point -> option Z) (polygon : Polygon)
  (frame_step_ : Z) (cache : list Detection) :
  work ppt polygon frame_step_ cache = [] <->
  forall det box,
    In det (pass_frames frame_step_ cache) -> In box (boxes det) ->
    in_zone ppt polygon box = false.
Proof.
  unfold work.
  induction (pass_frames frame_step_ cache) as [| det rest IH]; simpl.
  - split; [intros _ det box [] | reflexivity].
  - split.
    + intros E det' box [<- | Hd] Hbox.
      * apply app_eq_nil in E. destruct E as [E _].
        apply map_eq_nil in E.
        now apply (proj1 (zone_boxes_none ppt polygon (boxes det))).
      * apply app_eq_nil in E. destruct E as [_ E].
        apply (proj1 IH E det' box); trivial.
    + intro Hall.
      rewrite (proj2 (zone_boxes_none ppt polygon (boxes det))).
      * simpl. apply IH. intros d b Hd Hb. apply (Hall d b); auto.
      * intros box Hbox. apply (Hall det box); auto.
Qed.

Lemma creations_first (item : Z * Box) (rest : list (Z * Box)) :
  (1 <= creations (item :: rest) new_tracker)%nat.
Proof.
  simpl. lia.
Qed.

(** On the two-frame cache the peak count is 2 and one person passed: the
    second box of frame 0 is matched to the person the first one created. *)
Lemma undercount :
  exists r,
    analyze crossing_test 7 "ann" "z1" door two_frames 25 1 = Ok r
    /\ total_persons_passed r < peak_count r.
Proof.
  eexists. split; reflexivity.
Qed.

(** C7. The number of persons passed is never negative; it is zero exactly
    when no box of a visited frame is in the zone; and it is not bounded
    below by the peak count. *)
Theorem persons_passed (ppt : Polygon -> Point -> option Z) (now : DateTime)
  (user zid : string) (zone : Zone) (cache : list Detection) (fps_ : Q)
  (frame_step_ : Z) (r : AnalysisResult) :
  analyze ppt now user zid zone cache fps_ frame_step_ = Ok r ->
  0 <= total_persons_passed r
  /\ (total_persons_passed r = 0 <->
      forall det box,
        In det (pass_frames frame_step_ cache) -> In box (boxes det) ->
        in_zone ppt (z_polygon zone) box = false)
  /\ ~ (forall ppt' now' user' zid' zone' cache' fps' step' r',
          analyze ppt' now' user' zid' zone' cache' fps' step' = Ok r' ->
          peak_count r' <= total_persons_passed r').
Proof.
  intro H. apply analyze_ok in H. destruct H as (_ & _ & ->).
  cbn [total_persons_passed].
  split; [lia |]. split.
  - rewrite <- work_none.
    rewrite fold_creations by apply numbered_new. simpl.
    destruct (work ppt (z_polygon zone) frame_step_ cache) as [| item rest].
    + split; reflexivity.
    + pose proof (creations_first item rest). split; [lia | discriminate].
  - intro Hall. destruct undercount as (r' & Hr' & Hlt).
    specialize (Hall _ _ _ _ _ _ _ _ _ Hr'). lia.
Qed.

(** C7 on the corridor with an empty frame: nobody in the zone, nobody
    passed. *)
Lemma persons_passed_witness :
  exists r,
    analyze crossing_test 7 "ann" "z1" door
      [{| frame := 0; timestamp := None; boxes := [[200; 200; 210; 210]] |}]
      25 1 = Ok r
    /\ total_persons_passed r = 0.
Proof.
  eexists. split; [reflexivity |].
  apply (persons_passed crossing_test 7 "ann" "z1" door
           [{| frame := 0; timestamp := None;
               boxes := [[200; 200; 210; 210]] |}] 25 1 _ eq_refl).
  intros det box [<- | []] [<- | []]. reflexivity.
Defined.

(** * Properties of the other handlers *)

(** ** Serialising detector boxes *)

Lemma unpack_box_four (b : RawBox) (q : Box) :
  unpack_box b = Some q ->
  b = [fst (fst (fst q)); snd (fst (fst q)); snd (fst q); snd q].
Proof.
  destruct b as [| a [| b' [| c [| d [| e rest]]]]]; simpl; try discriminate.
  intro H. injection H as <-. reflexivity.
Qed.

Lemma unpack_box_length (b : RawBox) :
  (length b =? 4)%nat = match unpack_box b with Some _ => true | None => false end.
Proof.
  destruct b as [| a [| b' [| c [| d [| e rest]]]]]; reflexivity.
Qed.

Lemma serializable_fold (boxes out : list RawBox) :
  fold_left
    (fun out b =>
       match unpack_box b with
       | Some (x1, y1, x2, y2) => out ++ [[x1; y1; x2; y2]]
       | None => out
       end)
    boxes out
  = out ++ filter (fun b => (length b =? 4)%nat) boxes.
Proof.
  revert out. induction boxes as [| b boxes IH]; intro out; simpl.
  - now rewrite app_nil_r.
  - rewrite IH, unpack_box_length.
    destruct (unpack_box b) as [[[[x1 y1] x2] y2] |] eqn:E; trivial.
    apply unpack_box_four in E. simpl in E. subst b.
    now rewrite <- app_assoc.
Qed.

Lemma serializable_filter (boxes : list RawBox) :
  _boxes_to_serializable boxes = filter (fun b => (length b =? 4)%nat) boxes.
Proof.
  unfold _boxes_to_serializable. now rewrite serializable_fold.
Qed.

Lemma serializable_unpack (boxes : list RawBox) :
  Forall (fun b => exists q, unpack_box b = Some q)
         (_boxes_to_serializable boxes).
Proof.
  rewrite serializable_filter. apply Forall_forall. intros b Hb.
  apply filter_In in Hb. destruct Hb as [_ Hb].
  rewrite unpack_box_length in Hb.
  destruct (unpack_box b) as [q |]; [now exists q | discriminate].
Qed.

(** X1. The serialised boxes are the boxes of four coordinates, in the
    order given; each of them unpacks, so none is skipped later; and
    serialising a serialised list changes nothing. *)
Theorem boxes_serializable (boxes : list RawBox) :
  _boxes_to_serializable boxes = filter (fun b => (length b =? 4)%nat) boxes
  /\ Forall (fun b => exists q, unpack_box b = Some q)
            (_boxes_to_serializable boxes)
  /\ _boxes_to_serializable (_boxes_to_serializable boxes)
     = _boxes_to_serializable boxes.
Proof.
  split; [apply serializable_filter |].
  split; [apply serializable_unpack |].
  rewrite !serializable_filter.
  induction boxes as [| b boxes IH]; trivial.
  simpl. destruct (length b =? 4)%nat eqn:E; trivial.
  simpl. now rewrite E, IH.
Qed.

(** ** The detection cache of an upload *)

Lemma py_int_nonneg (x : Q) : (0 <= x)%Q -> 0 <= py_int x.
Proof.
  intro H. unfold py_int.
  replace (Qle_bool 0 x) with true by (symmetry; now apply Qle_bool_iff).
  change 0 with (Qfloor 0). now apply Qfloor_resp_le.
Qed.

Lemma capture_step_pos (fps_ : Q) : 1 <= capture_step fps_.
Proof.
  unfold capture_step. lia.
Qed.

Section Upload.

Variable Frame : Type.
Variable DETECTOR : Frame -> option (list RawBox).
Variables (fps_ : Q) (step : Z).

Lemma read_frames_shape (frames : list Frame) : forall frame_idx cache,
  exists added,
    read_frames Frame DETECTOR fps_ step frames frame_idx cache
      = cache ++ added
    /\ Forall (recorded fps_ step frame_idx
                (frame_idx + Z.of_nat (length frames))) added
    /\ StronglySorted Z.lt (map frame added).
Proof.
  induction frames as [| img rest IH]; intros frame_idx cache.
  - exists []. simpl. rewrite app_nil_r. repeat split; constructor.
  - cbn [read_frames].
    assert (Hwiden : forall added,
               Forall (recorded fps_ step (frame_idx + 1)
                         (frame_idx + 1 + Z.of_nat (length rest))) added ->
               Forall (recorded fps_ step frame_idx
                         (frame_idx + Z.of_nat (length (img :: rest)))) added).
    { intros added H. eapply Forall_impl; [| exact H].
      intros det (Hr & Hm & Ht & Hb). repeat split; trivial;
        cbn [length]; lia. }
    destruct (frame_idx mod step =? 0) eqn:Hmod;
      [destruct (DETECTOR img) as [bs |] |].
    + destruct (IH (frame_idx + 1)
                  (cache ++
                   [{| frame := frame_idx;
                       timestamp := Some (inject_Z frame_idx / fps_)%Q;
                       boxes := _boxes_to_serializable bs |}]))
        as (added & Heq & Hall & Hsorted).
      exists ({| frame := frame_idx;
                 timestamp := Some (inject_Z frame_idx / fps_)%Q;
                 boxes := _boxes_to_serializable bs |} :: added).
      rewrite Heq, <- app_assoc. split; [reflexivity |].
      split.
      * constructor; [| now apply Hwiden].
        unfold recorded. cbn [frame timestamp boxes length].
        split; [lia |]. split; [now apply Z.eqb_eq |].
        split; [reflexivity | apply serializable_unpack].
      * cbn [map frame]. constructor; trivial.
        apply Forall_forall. intros f Hf.
        apply in_map_iff in Hf. destruct Hf as (det & <- & Hdet).
        rewrite Forall_forall in Hall. destruct (Hall det Hdet) as (Hr & _).
        lia.
    + destruct (IH (frame_idx + 1) cache) as (added & Heq & Hall & Hsorted).
      exists added. auto.
    + destruct (IH (frame_idx + 1) cache) as (added & Heq & Hall & Hsorted).
      exists added. auto.
Qed.

Hypothesis detects : forall img, DETECTOR img <> None.

Lemma read_frames_sampled (frames : list Frame) : forall frame_idx cache,
  map frame (read_frames Frame DETECTOR fps_ step frames frame_idx cache)
  = map frame cache
    ++ filter (fun i => i mod step =? 0)
         (map (fun k => frame_idx + Z.of_nat k) (seq 0 (length frames))).
Proof.
  induction frames as [| img rest IH]; intros frame_idx cache.
  - simpl. now rewrite app_nil_r.
  - cbn [read_frames length seq map filter].
    rewrite IH, Z.add_0_r.
    assert (Hshift :
              map (fun k => frame_idx + 1 + Z.of_nat k) (seq 0 (length rest))
              = map (fun k => frame_idx + Z.of_nat k) (seq 1 (length rest))).
    { rewrite <- seq_shift, map_map. apply map_ext. intro k. lia. }
    rewrite Hshift.
    destruct (frame_idx mod step =? 0); trivial.
    destruct (DETECTOR img) as [bs |] eqn:E; [| now apply detects in E].
    rewrite map_app, <- app_assoc. reflexivity.
Qed.

End Upload.

Lemma sorted_lt_le (l : list Z) :
  StronglySorted Z.lt l -> StronglySorted Z.le l.
Proof.
  induction 1 as [| x l Hs IH Hall]; constructor; trivial.
  eapply Forall_impl; [| exact Hall]. simpl. intros; lia.
Qed.

(** X2. Whatever the detector does, the capture stride is at least 1, and
    the cache of an upload lists strictly increasing frame indices; every
    entry is for a frame of the video whose index is a multiple of the
    stride, carries the timestamp index / fps, and holds only boxes of four
    coordinates. *)
Theorem uploaded_cache_entries (Frame : Type)
  (DETECTOR : Frame -> option (list RawBox)) (raw_fps : Q)
  (frames : list Frame) :
  1 <= capture_step (video_fps raw_fps)
  /\ StronglySorted Z.lt
       (map frame (generate_detections Frame DETECTOR raw_fps frames))
  /\ StronglySorted Z.le
       (map frame (generate_detections Frame DETECTOR raw_fps frames))
  /\ Forall (fun det =>
               0 <= frame det < Z.of_nat (length frames)
               /\ frame det mod capture_step (video_fps raw_fps) = 0
               /\ timestamp det
                  = Some (inject_Z (frame det) / video_fps raw_fps)%Q
               /\ Forall (fun b => exists q, unpack_box b = Some q)
                         (boxes det))
            (generate_detections Frame DETECTOR raw_fps frames).
Proof.
  split; [apply capture_step_pos |].
  unfold generate_detections.
  destruct (read_frames_shape Frame DETECTOR (video_fps raw_fps)
              (capture_step (video_fps raw_fps)) frames 0 [])
    as (added & -> & Hall & Hsorted).
  simpl. split; [exact Hsorted |]. split; [now apply sorted_lt_le |].
  exact Hall.
Qed.

Lemma generate_detections_sampled (Frame : Type)
  (DETECTOR : Frame -> option (list RawBox)) (raw_fps : Q)
  (frames : list Frame) :
  (forall img, DETECTOR img <> None) ->
  map frame (generate_detections Frame DETECTOR raw_fps frames)
  = sampled (capture_step (video_fps raw_fps)) (length frames).
Proof.
  intro Hdet. unfold generate_detections, sampled.
  rewrite read_frames_sampled by exact Hdet. reflexivity.
Qed.

Lemma generate_detections_first (Frame : Type)
  (DETECTOR : Frame -> option (list RawBox)) (raw_fps : Q)
  (frames : list Frame) :
  (forall img, DETECTOR img <> None) -> frames <> [] ->
  exists det rest,
    generate_detections Frame DETECTOR raw_fps frames = det :: rest
    /\ frame det = 0.
Proof.
  intros Hdet Hne.
  pose proof (generate_detections_sampled Frame DETECTOR raw_fps frames Hdet)
    as Hmap.
  destruct frames as [| img rest]; [congruence |].
  unfold sampled in Hmap. cbn [length seq map filter] in Hmap.
  rewrite Z.mod_0_l in Hmap
    by (pose proof (capture_step_pos (video_fps raw_fps)); lia).
  cbn [Z.eqb] in Hmap.
  destruct (generate_detections Frame DETECTOR raw_fps (img :: rest))
    as [| det more]; [discriminate |].
  exists det, more. split; trivial.
  simpl in Hmap. now injection Hmap.
Qed.

(** X3. When the detector does not raise, the cached frame indices are
    exactly the indices below the frame count that are multiples of the
    capture stride; a video with at least one frame is cached from frame 0
    on. *)
Theorem uploaded_cache_frames (Frame : Type)
  (DETECTOR : Frame -> option (list RawBox)) (raw_fps : Q)
  (frames : list Frame) :
  (forall img, DETECTOR img <> None) ->
  map frame (generate_detections Frame DETECTOR raw_fps frames)
  = sampled (capture_step (video_fps raw_fps)) (length frames)
  /\ (frames <> [] ->
      exists det rest,
        generate_detections Frame DETECTOR raw_fps frames = det :: rest
        /\ frame det = 0).
Proof.
  intro Hdet. split.
  - now apply generate_detections_sampled.
  - now apply generate_detections_first.
Qed.

(** X3 on the clip of three frames at 25 frames per second: the stride is
    5 and only frame 0 is cached. *)
Lemma uploaded_cache_frames_witness :
  (forall img, reads_boxes img <> None)
  /\ map frame (generate_detections (list RawBox) reads_boxes 25 clip) = [0].
Proof.
  assert (H : forall img, reads_boxes img <> None) by discriminate.
  split; [exact H |].
  exact (proj1 (uploaded_cache_frames (list RawBox) reads_boxes 25 clip H)).
Defined.

(** ** What [analyze_zone] stores *)

Lemma analyze_zone_ok (ppt : Polygon -> Point -> option Z) (env : Env)
  (user : string) (data : Request) (feed_obj feed' : Feed)
  (r : AnalysisResult) :
  analyze_zone ppt env user data feed_obj = (Ok r, feed') ->
  exists zid zone,
    req_zone_id data = Some zid
    /\ zid <> EmptyString
    /\ find (fun z => String.eqb (z_zone_id z) zid) (zones feed_obj) = Some zone
    /\ analyze ppt (utcnow_summary env) user zid zone
         (detections_cache feed_obj)
         (match summary_fps feed_obj with Some f => f | None => 10%Q end)
         (let s := match req_frame_step data with Some s => s | None => 1 end
          in if s <? 1 then 1 else s)
       = Ok r
    /\ feed' = store env r feed_obj.
Proof.
  unfold analyze_zone. intro H.
  destruct (req_zone_id data) as [zid |]; [| discriminate].
  destruct (String.eqb zid EmptyString) eqn:Hzid; [discriminate |].
  destruct (find _ (zones feed_obj)) as [zone |] eqn:Hfind; [| discriminate].
  destruct (analyze ppt (utcnow_summary env) user zid zone _ _ _)
    as [r' | e] eqn:Han; [| discriminate].
  injection H as -> <-.
  exists zid, zone. repeat split; trivial.
  now apply String.eqb_neq.
Qed.

Lemma analyze_zone_err (ppt : Polygon -> Point -> option Z) (env : Env)
  (user : string) (data : Request) (feed_obj feed' : Feed) (e : Failure) :
  analyze_zone ppt env user data feed_obj = (Err e, feed') -> feed' = feed_obj.
Proof.
  unfold analyze_zone.
  destruct (req_zone_id data) as [zid |]; [| now intros [= _ <-]].
  destruct (String.eqb zid EmptyString); [now intros [= _ <-] |].
  destruct (find _ (zones feed_obj)) as [zone |]; [| now intros [= _ <-]].
  destruct (analyze ppt (utcnow_summary env) user zid zone _ _ _);
    [discriminate | now intros [= _ <-]].
Qed.

Lemma set_zone_analysis_first (zid : string) (summary : AnalysisResult)
  (at_ : DateTime) (zs : list Zone) (zone : Zone) :
  find (fun z => String.eqb (z_zone_id z) zid) zs = Some zone ->
  exists before after,
    zs = before ++ zone :: after
    /\ z_zone_id zone = zid
    /\ Forall (fun q => z_zone_id q <> zid) before
    /\ set_zone_analysis zid summary at_ zs
       = before ++
         {| z_zone_id := z_zone_id zone;
            z_zone_name := z_zone_name zone;
            z_polygon := z_polygon zone;
            z_last_analysis := Some summary;
            z_total_count := Some (total_count summary);
            z_analyzed_at := Some at_ |} :: after.
Proof.
  induction zs as [| z rest IH]; simpl; [discriminate |].
  destruct (String.eqb (z_zone_id z) zid) eqn:E.
  - intros [= <-]. exists [], rest. apply String.eqb_eq in E.
    repeat split; trivial.
  - intro H. destruct (IH H) as (before & after & -> & Hid & Hall & Hset).
    exists (z :: before), after. rewrite Hset.
    repeat split; trivial. constructor; trivial. now apply String.eqb_neq.
Qed.

Lemma find_set_zone_analysis (zid : string) (summary : AnalysisResult)
  (at_ : DateTime) (zs : list Zone) (zone : Zone) :
  find (fun z => String.eqb (z_zone_id z) zid) zs = Some zone ->
  find (fun z => String.eqb (z_zone_id z) zid)
       (set_zone_analysis zid summary at_ zs)
  = Some {| z_zone_id := z_zone_id zone;
            z_zone_name := z_zone_name zone;
            z_polygon := z_polygon zone;
            z_last_analysis := Some summary;
            z_total_count := Some (total_count summary);
            z_analyzed_at := Some at_ |}.
Proof.
  induction zs as [| z rest IH]; simpl; [discriminate |].
  destruct (String.eqb (z_zone_id z) zid) eqn:E; simpl; rewrite E.
  - now intros [= <-].
  - exact IH.
Qed.

(** X4. A successful analysis appends exactly one entry to the history of
    the feed, carrying the averages, peak, total, persons, duration, zone
    and user of the result, and changes neither the detection cache nor the
    stored frame rate; a failed one returns the feed as it was. *)
Theorem analysis_appends_history (ppt : Polygon -> Point -> option Z)
  (env : Env) (user : string) (data : Request) (feed_obj : Feed) :
  match analyze_zone ppt env user data feed_obj with
  | (Ok r, feed') =>
      analysis_history feed'
      = analysis_history feed_obj ++
        [{| h_analysis_id := new_object_id env;
            h_zone_id := zone_id r;
            h_zone_name := zone_name r;
            h_timestamp := utcnow_history env;
            h_avg_count := avg_count r;
            h_peak_count := peak_count r;
            h_total_count := peak_count r;
            h_total_persons_passed := total_persons_passed r;
            h_duration := duration r;
            h_analyzed_by := user |}]
      /\ detections_cache feed' = detections_cache feed_obj
      /\ summary_fps feed' = summary_fps feed_obj
  | (Err _, feed') => feed' = feed_obj
  end.
Proof.
  destruct (analyze_zone ppt env user data feed_obj) as [[r | e] feed'] eqn:E.
  - apply analyze_zone_ok in E.
    destruct E as (zid & zone & _ & _ & _ & Han & ->).
    apply analyze_ok in Han. destruct Han as (_ & _ & ->).
    repeat split.
  - now apply analyze_zone_err in E.
Qed.

(** X5. A successful analysis rewrites one zone only, the first one with
    the requested id: it keeps its id, name and polygon, and takes the
    result as its last analysis, the peak count as its total count and the
    handler's second clock reading as its stamp. *)
Theorem analysis_replaces_latest (ppt : Polygon -> Point -> option Z)
  (env : Env) (user : string) (data : Request) (feed_obj feed' : Feed)
  (r : AnalysisResult) :
  analyze_zone ppt env user data feed_obj = (Ok r, feed') ->
  exists before z after,
    zones feed_obj = before ++ z :: after
    /\ req_zone_id data = Some (z_zone_id z)
    /\ zone_id r = z_zone_id z
    /\ Forall (fun q => z_zone_id q <> z_zone_id z) before
    /\ zones feed'
       = before ++
         {| z_zone_id := z_zone_id z;
            z_zone_name := z_zone_name z;
            z_polygon := z_polygon z;
            z_last_analysis := Some r;
            z_total_count := Some (peak_count r);
            z_analyzed_at := Some (utcnow_zone env) |} :: after.
Proof.
  intro H. apply analyze_zone_ok in H.
  destruct H as (zid & zone & Hreq & _ & Hfind & Han & ->).
  assert (Hid : zone_id r = zid /\ total_count r = peak_count r).
  { apply analyze_ok in Han. destruct Han as (_ & _ & ->). split; reflexivity. }
  destruct Hid as [Hid Htot].
  destruct (set_zone_analysis_first zid r (utcnow_zone env) _ _ Hfind)
    as (before & after & Hz & Hzid & Hall & Hset).
  exists before, zone, after. unfold store. cbn [zones].
  rewrite Hid, Hset, Htot, Hzid. repeat split; trivial.
Qed.

(** X5 on the corridor feed: the zone z1 takes the result. *)
Lemma analysis_replaces_latest_witness :
  exists r feed',
    analyze_zone crossing_test morning "ann" (ask (Some 1)) corridor
    = (Ok r, feed')
    /\ exists z, map z_last_analysis (zones feed') = [Some r]
                 /\ z_zone_id z = "z1"%string.
Proof.
  eexists. eexists. split; [vm_compute; reflexivity |].
  destruct (analysis_replaces_latest crossing_test morning "ann"
              (ask (Some 1)) corridor _ _ eq_refl)
    as (before & z & after & Hsplit & Hreq & _ & _ & Hz).
  exists z. split.
  - reflexivity.
  - injection Hreq as Hreq. now symmetry.
Defined.

(** ** Analysing again *)

Lemma analyze_same_zone (ppt : Polygon -> Point -> option Z) (now : DateTime)
  (user zid : string) (z z' : Zone) (cache : list Detection) (fps_ : Q)
  (frame_step_ : Z) :
  z_polygon z' = z_polygon z -> z_zone_name z' = z_zone_name z ->
  analyze ppt now user zid z' cache fps_ frame_step_
  = analyze ppt now user zid z cache fps_ frame_step_.
Proof.
  intros Hp Hn. unfold analyze. now rewrite Hp, Hn.
Qed.

(** X6. Analysing a zone again, on the feed as the first analysis left it,
    gives the first result with a new stamp; the history then holds both
    entries, in order, and the zone holds the second result. *)
Theorem reanalysis (ppt : Polygon -> Point -> option Z) (env1 env2 : Env)
  (user : string) (data : Request) (feed_obj feed1 : Feed)
  (r1 : AnalysisResult) :
  analyze_zone ppt env1 user data feed_obj = (Ok r1, feed1) ->
  exists r2 feed2 z2,
    analyze_zone ppt env2 user data feed1 = (Ok r2, feed2)
    /\ r2 = with_analyzed_at (utcnow_summary env2) r1
    /\ analysis_history feed2
       = analysis_history feed_obj
         ++ [history_entry env1 r1; history_entry env2 r2]
    /\ find (fun z => String.eqb (z_zone_id z) (zone_id r1)) (zones feed2)
       = Some z2
    /\ z_last_analysis z2 = Some r2.
Proof.
  intro H. apply analyze_zone_ok in H.
  destruct H as (zid & zone & Hreq & Hzid & Hfind & Han & ->).
  cbv zeta in Han.
  assert (Hid : zone_id r1 = zid).
  { pose proof Han as Hok. apply analyze_ok in Hok.
    now destruct Hok as (_ & _ & ->). }
  pose proof (find_set_zone_analysis zid r1 (utcnow_zone env1) _ _ Hfind)
    as Hfind1.
  set (z1 := {| z_zone_id := z_zone_id zone;
                z_zone_name := z_zone_name zone;
                z_polygon := z_polygon zone;
                z_last_analysis := Some r1;
                z_total_count := Some (total_count r1);
                z_analyzed_at := Some (utcnow_zone env1) |}) in *.
  pose proof (find_set_zone_analysis zid (with_analyzed_at (utcnow_summary env2) r1)
                (utcnow_zone env2) _ _ Hfind1) as Hfind2.
  eexists. eexists. eexists.
  unfold analyze_zone at 1. cbv zeta. rewrite Hreq.
  apply String.eqb_neq in Hzid. rewrite Hzid.
  unfold store. cbn [zones summary_fps detections_cache analysis_history].
  rewrite Hid, Hfind1.
  rewrite (analyze_same_zone ppt _ user zid zone z1) by reflexivity.
  rewrite (analyze_stamp ppt (utcnow_summary env1) (utcnow_summary env2)).
  rewrite Han.
  split; [reflexivity |]. split; [reflexivity |].
  cbn [analysis_history zones zone_id with_analyzed_at].
  rewrite Hid, <- app_assoc. split; [reflexivity |].
  split; [exact Hfind2 | reflexivity].
Qed.

(** X6 on the corridor feed, analysed in the morning and in the evening. *)
Lemma reanalysis_witness :
  exists r1 feed1 r2 feed2,
    analyze_zone crossing_test morning "ann" (ask (Some 1)) corridor
    = (Ok r1, feed1)
    /\ analyze_zone crossing_test evening "ann" (ask (Some 1)) feed1
       = (Ok r2, feed2)
    /\ r2 = with_analyzed_at 2000 r1
    /\ length (analysis_history feed2) = 2%nat.
Proof.
  eexists. eexists.
  destruct (reanalysis crossing_test morning evening "ann" (ask (Some 1))
              corridor _ _ eq_refl)
    as (r2 & feed2 & z2 & Hrun & Hr2 & Hhist & _).
  exists r2, feed2.
  split; [reflexivity |]. split; [exact Hrun |]. split; [exact Hr2 |].
  now rewrite Hhist.
Defined.

(** ** Analysing an uploaded feed *)

Lemma visited_frame_zero (frame_step_ : Z) (det : Detection) :
  frame det = 0 -> visited frame_step_ det = true.
Proof.
  intro H. unfold visited, skipped. rewrite H, Zmod_0_l. simpl.
  now rewrite andb_false_r.
Qed.

(** X7. Take a feed whose cache is the one an upload builds from a video
    of at least one frame, with a detector that does not raise, and which,
    like every uploaded feed, has no summary.  Then every request that
    names a zone of the feed is answered with a result, whatever stride it
    asks for, since frame 0 is cached and survives every stride; and the
    frame rate reported is 10, whatever the frame rate of the video. *)
Theorem uploaded_feed_analysis (ppt : Polygon -> Point -> option Z)
  (Frame : Type) (DETECTOR : Frame -> option (list RawBox)) (raw_fps : Q)
  (frames : list Frame) (env : Env) (user zid : string) (s : option Z)
  (feed_obj : Feed) (zone : Zone) :
  (forall img, DETECTOR img <> None) ->
  frames <> [] ->
  detections_cache feed_obj = generate_detections Frame DETECTOR raw_fps frames ->
  summary_fps feed_obj = None ->
  zid <> EmptyString ->
  find (fun z => String.eqb (z_zone_id z) zid) (zones feed_obj) = Some zone ->
  exists r,
    analyze_zone ppt env user
      {| req_zone_id := Some zid; req_frame_step := s |} feed_obj
    = (Ok r, store env r feed_obj)
    /\ fps r = 10%Q
    /\ 1 <= frames_analyzed r.
Proof.
  intros Hdet Hframes Hcache Hsum Hzid Hfind.
  destruct (generate_detections_first Frame DETECTOR raw_fps frames Hdet
              Hframes) as (det & rest & Hgen & Hzero).
  unfold analyze_zone. cbn [req_zone_id req_frame_step].
  apply String.eqb_neq in Hzid. rewrite Hzid, Hfind, Hsum, Hcache, Hgen.
  set (step := if _ <? 1 then 1 else _).
  destruct (analyze_total ppt (utcnow_summary env) user zid zone
              (det :: rest) 10 step) as (r & Hr).
  - discriminate.
  - unfold pass_frames. cbn [filter].
    rewrite visited_frame_zero by exact Hzero. discriminate.
  - reflexivity.
  - exists r. rewrite Hr. split; [reflexivity |].
    apply analyze_ok in Hr. destruct Hr as (_ & Hne & ->).
    cbn [fps frames_analyzed]. split; [reflexivity |].
    rewrite length_map.
    destruct (pass_frames step (det :: rest)); [congruence | simpl; lia].
Qed.

(** X7 on the clip, uploaded at 25 frames per second and given the zone
    of the door: a request for the stride 1000 is answered. *)
Lemma uploaded_feed_analysis_witness :
  exists r,
    fst (analyze_zone crossing_test morning "ann" (ask (Some 1000))
           (with_zones [door] (feed_doc (list RawBox) reads_boxes 25 clip)))
    = Ok r
    /\ fps r = 10%Q.
Proof.
  destruct (uploaded_feed_analysis crossing_test (list RawBox) reads_boxes 25
              clip morning "ann" "z1" (Some 1000)
              (with_zones [door] (feed_doc (list RawBox) reads_boxes 25 clip))
              door)
    as (r & Hr & Hfps & _);
    try reflexivity; try discriminate.
  exists r. unfold ask. rewrite Hr. split; [reflexivity | exact Hfps].
Defined.

(** ** Bounds on the aggregates *)

Lemma Zsum_between (lo hi : Z) (l : list Z) :
  Forall (fun c => lo <= c <= hi) l ->
  Z.of_nat (length l) * lo <= Zsum l <= Z.of_nat (length l) * hi.
Proof.
  induction 1 as [| c l Hc _ IH]; [simpl; lia |].
  cbn [length Zsum fold_right]. fold (Zsum l).
  rewrite Nat2Z.inj_succ. lia.
Qed.

Lemma np_mean_between (lo hi : Z) (l : list Z) :
  l <> [] -> Forall (fun c => lo <= c <= hi) l ->
  (inject_Z lo <= np_mean l <= inject_Z hi)%Q.
Proof.
  intros Hne Hall. apply Zsum_between in Hall.
  unfold np_mean, true_div. rewrite np_sum_Zsum.
  assert (Hpos : (0 < inject_Z (Z.of_nat (length l)))%Q).
  { unfold Qlt. simpl. destruct l; [congruence | simpl; lia]. }
  split.
  - apply Qle_shift_div_l; trivial.
    rewrite <- inject_Z_mult, <- Zle_Qle. lia.
  - apply Qle_shift_div_r; trivial.
    rewrite <- inject_Z_mult, <- Zle_Qle. lia.
Qed.

Lemma creations_le (w : list (Z * Box)) : forall tr,
  (creations w tr <= length w)%nat.
Proof.
  induction w as [| item w IH]; intro tr; simpl; [lia |].
  specialize (IH (track_item tr item)).
  destruct (has_match (fst item) (snd item) (tracked_persons tr)); lia.
Qed.

Lemma work_length (ppt : Polygon -> Point -> option Z) (polygon : Polygon)
  (frame_step_ : Z) (cache : list Detection) :
  Z.of_nat (length (work ppt polygon frame_step_ cache))
  = Zsum (map (occupancy ppt polygon) (pass_frames frame_step_ cache)).
Proof.
  unfold work.
  induction (pass_frames frame_step_ cache) as [| det rest IH]; trivial.
  simpl. rewrite length_app, length_map, Nat2Z.inj_add, IH.
  now rewrite occupancy_zone_boxes.
Qed.

(** X8. In every result the counts are not negative, the minimum is at most
    the average and the average at most the peak, at least one frame was
    analysed, and the number of persons passed is at most the sum of the
    counts: a box in the zone creates at most one person. *)
Theorem aggregate_bounds (ppt : Polygon -> Point -> option Z) (now : DateTime)
  (user zid : string) (zone : Zone) (cache : list Detection) (fps_ : Q)
  (frame_step_ : Z) (r : AnalysisResult) :
  analyze ppt now user zid zone cache fps_ frame_step_ = Ok r ->
  Forall (fun c => 0 <= c) (counts_per_frame r)
  /\ 0 <= min_count r <= peak_count r
  /\ (inject_Z (min_count r) <= avg_count r <= inject_Z (peak_count r))%Q
  /\ 1 <= frames_analyzed r
  /\ total_persons_passed r <= Zsum (counts_per_frame r).
Proof.
  intro H. apply analyze_ok in H. destruct H as (_ & Hne & ->).
  cbn [counts_per_frame min_count peak_count avg_count frames_analyzed
       total_persons_passed].
  set (cs := map (occupancy ppt (z_polygon zone))
                 (pass_frames frame_step_ cache)).
  assert (Hcs : cs <> []).
  { subst cs. destruct (pass_frames frame_step_ cache);
      [congruence | discriminate]. }
  destruct (np_max_is_max cs Hcs) as [Hmax_in Hmax].
  destruct (np_min_is_min cs Hcs) as [Hmin_in Hmin].
  assert (Hnonneg : Forall (fun c => 0 <= c) cs).
  { subst cs. apply Forall_forall. intros c Hc.
    apply in_map_iff in Hc. destruct Hc as (det & <- & _).
    unfold occupancy. lia. }
  split; [exact Hnonneg |].
  rewrite Forall_forall in Hmax, Hmin, Hnonneg.
  split; [split; [now apply Hnonneg | now apply Hmax] |].
  split.
  - apply np_mean_between; trivial.
    apply Forall_forall. intros c Hc. split; [now apply Hmin | now apply Hmax].
  - split.
    + destruct cs; [congruence | simpl; lia].
    + rewrite fold_creations by apply numbered_new.
      subst cs. rewrite <- work_length.
      apply inj_le. apply creations_le.
Qed.

(** X8 on the two-frame cache: 1 <= 3/2 <= 2 and one person for three
    boxes in the zone. *)
Lemma aggregate_bounds_witness :
  exists r,
    analyze crossing_test 7 "ann" "z1" door two_frames 25 1 = Ok r
    /\ 0 <= min_count r <= peak_count r
    /\ total_persons_passed r <= Zsum (counts_per_frame r).
Proof.
  eexists. split; [reflexivity |].
  destruct (aggregate_bounds crossing_test 7 "ann" "z1" door two_frames 25 1
              _ eq_refl) as (_ & Hmin & _ & _ & Htpp).
  split; [exact Hmin | exact Htpp].
Defined.

(** ** Creating, updating and deleting zones *)

Lemma to_polygon_round (polygon : list (list Z)) : forall ps,
  to_polygon polygon = Some ps ->
  polygon = as_json ps /\ length ps = length polygon.
Proof.
  induction polygon as [| pt rest IH]; intros ps H; simpl in H.
  - injection H as <-. split; reflexivity.
  - destruct pt as [| x [| y [| z more]]]; simpl in H; try discriminate.
    destruct (to_polygon rest) as [qs |]; [| discriminate].
    injection H as <-. destruct (IH qs eq_refl) as [-> Hlen].
    simpl. split; [reflexivity | now rewrite Hlen].
Qed.

Lemma as_json_polygon (ps : Polygon) : to_polygon (as_json ps) = Some ps.
Proof.
  induction ps as [| [x y] ps IH]; simpl; trivial.
  now rewrite IH.
Qed.

Lemma too_short_false (polygon : list (list Z)) :
  too_short polygon = false -> (3 <= length polygon)%nat.
Proof.
  unfold too_short. intro H. apply Nat.ltb_ge in H. exact H.
Qed.

Lemma with_zones_same (feed_obj : Feed) :
  with_zones (zones feed_obj) feed_obj = feed_obj.
Proof.
  now destruct feed_obj.
Qed.

Lemma keep_other_ids (zid : string) (zs : list Zone) :
  ~ In zid (map z_zone_id zs) ->
  filter (fun z => negb (String.eqb (z_zone_id z) zid)) zs = zs
  /\ find (fun z => String.eqb (z_zone_id z) zid) zs = None.
Proof.
  induction zs as [| z zs IH]; simpl; intro H; [split; reflexivity |].
  assert (E : String.eqb (z_zone_id z) zid = false).
  { apply String.eqb_neq. intro Heq. apply H. now left. }
  rewrite E. simpl. destruct IH as [IH1 IH2]; [tauto |].
  now rewrite IH1, IH2.
Qed.



(** X10. Deleting a zone just created, under an id no other zone of the
    feed has, gives back the feed as it was before the creation. *)
Theorem create_then_delete (strip : string -> string) (zid : string)
  (data : ZoneRequest) (feed_obj feed' : Feed) (zone : Zone) :
  ~ In zid (zone_ids feed_obj) ->
  create_zone strip zid data feed_obj = (inr zone, feed') ->
  delete_zone zid feed' = (inr tt, feed_obj).
Proof.
  intros Hfresh H. unfold create_zone in H.
  destruct (zr_polygon data) as [polygon |]; [| discriminate].
  destruct (too_short polygon); [discriminate |].
  destruct (to_polygon polygon) as [ps |]; [| discriminate].
  injection H as <- <-.
  unfold delete_zone. cbn [zones].
  destruct (keep_other_ids zid (zones feed_obj) Hfresh) as [Hkeep _].
  rewrite existsb_app, filter_app, Hkeep. cbn [existsb filter z_zone_id].
  rewrite String.eqb_refl, orb_true_r. cbn [negb].
  rewrite app_nil_r. unfold with_zones.
  cbn [summary_fps detections_cache analysis_history].
  now destruct feed_obj.
Qed.

(** X10 on the corridor feed, with the gate created under the id z2. *)
Lemma create_then_delete_witness :
  ~ In "z2"%string (zone_ids corridor)
  /\ delete_zone "z2" (snd (create_zone keeps "z2" gate_request corridor))
     = (inr tt, corridor).
Proof.
  assert (H : ~ In "z2"%string (zone_ids corridor)).
  { simpl. intros [H | []]. discriminate. }
  split; [exact H |].
  eapply (create_then_delete keeps "z2" gate_request corridor _ _ H).
  vm_compute. reflexivity.
Defined.




Lemma zone_index_none (zid : string) (zs : list Zone) :
  zone_index zid zs = None <-> ~ In zid (map z_zone_id zs).
Proof.
  induction zs as [| z rest IH]; simpl; [tauto |].
  destruct (String.eqb (z_zone_id z) zid) eqn:E.
  - apply String.eqb_eq in E. split; [discriminate | tauto].
  - apply String.eqb_neq in E.
    destruct (zone_index zid rest); simpl.
    + split; [discriminate |]. intro H. exfalso.
      destruct IH as [_ IH]. assert (Some n = None); [| discriminate].
      apply IH. tauto.
    + split; [| reflexivity]. intros _ [H | H]; [tauto |].
      now apply (proj1 IH).
Qed.


(** X13. [delete_zone] fails exactly when no zone has the id, and then
    changes nothing.  Otherwise it removes every zone with the id and keeps
    the others in order, with cache and history untouched.  Afterwards no
    zone has the id: a second deletion and an update fail, and an analysis
    under the id fails with [ZoneNotFound]. *)
Theorem zone_deletion (strip : string -> string)
  (ppt : Polygon -> Point -> option Z) (env : Env) (user zid : string)
  (upd : ZoneUpdate) (s : option Z) (feed_obj : Feed) :
  (fst (delete_zone zid feed_obj) = inl ZoneMissing
   <-> ~ In zid (zone_ids feed_obj))
  /\ (~ In zid (zone_ids feed_obj) -> snd (delete_zone zid feed_obj) = feed_obj)
  /\ zones (snd (delete_zone zid feed_obj))
     = filter (fun z => negb (String.eqb (z_zone_id z) zid)) (zones feed_obj)
  /\ detections_cache (snd (delete_zone zid feed_obj))
     = detections_cache feed_obj
  /\ analysis_history (snd (delete_zone zid feed_obj))
     = analysis_history feed_obj
  /\ ~ In zid (zone_ids (snd (delete_zone zid feed_obj)))
  /\ fst (delete_zone zid (snd (delete_zone zid feed_obj))) = inl ZoneMissing
  /\ fst (update_zone strip zid upd (snd (delete_zone zid feed_obj)))
     = inl ZoneMissing
  /\ (zid <> EmptyString ->
      fst (analyze_zone ppt env user
             {| req_zone_id := Some zid; req_frame_step := s |}
             (snd (delete_zone zid feed_obj)))
      = Err ZoneNotFound).
Proof.
  assert (Hex : existsb (fun z => String.eqb (z_zone_id z) zid) (zones feed_obj)
                = true <-> In zid (zone_ids feed_obj)).
  { unfold zone_ids. rewrite existsb_exists, in_map_iff.
    split; intros (z & H1 & H2).
    - exists z. apply String.eqb_eq in H2. auto.
    - exists z. split; trivial. now apply String.eqb_eq. }
  assert (Hzones : zones (snd (delete_zone zid feed_obj))
                   = filter (fun z => negb (String.eqb (z_zone_id z) zid))
                            (zones feed_obj)).
  { unfold delete_zone.
    destruct (existsb _ (zones feed_obj)) eqn:E; cbn [snd with_zones zones];
      trivial.
    symmetry. apply keep_other_ids. intro H. apply Hex in H. congruence. }
  assert (Hgone : ~ In zid (zone_ids (snd (delete_zone zid feed_obj)))).
  { unfold zone_ids. rewrite Hzones. intro H.
    apply in_map_iff in H. destruct H as (z & Hid & Hz).
    apply filter_In in Hz. destruct Hz as [_ Hz].
    rewrite <- Hid, String.eqb_refl in Hz. discriminate. }
  assert (Hfail : forall feed, ~ In zid (zone_ids feed) ->
                    delete_zone zid feed = (inl ZoneMissing, feed)).
  { intros feed H. unfold delete_zone.
    destruct (existsb _ (zones feed)) eqn:E; trivial.
    exfalso. apply H. unfold zone_ids.
    apply existsb_exists in E. destruct E as (z & H1 & H2).
    apply in_map_iff. exists z. apply String.eqb_eq in H2. auto. }
  split.
  { split.
    - unfold delete_zone.
      destruct (existsb _ (zones feed_obj)) eqn:E; [discriminate |].
      intros _ H. apply Hex in H. congruence.
    - intro H. now rewrite Hfail. }
  split; [intro H; now rewrite Hfail |].
  split; [exact Hzones |].
  split; [unfold delete_zone; now destruct (existsb _ (zones feed_obj)) |].
  split; [unfold delete_zone; now destruct (existsb _ (zones feed_obj)) |].
  split; [exact Hgone |].
  split; [now rewrite Hfail |].
  split.
  - unfold update_zone.
    now rewrite (proj2 (zone_index_none zid _) Hgone).
  - intro Hzid. unfold analyze_zone. cbn [req_zone_id].
    apply String.eqb_neq in Hzid. rewrite Hzid.
    now rewrite (proj2 (keep_other_ids zid _ Hgone)).
Qed.

(** X13 on the corridor feed: once z1 is deleted, no analysis of z1. *)
Lemma zone_deletion_witness :
  "z1"%string <> EmptyString
  /\ fst (analyze_zone crossing_test morning "ann" (ask (Some 1))
            (snd (delete_zone "z1" corridor)))
     = Err ZoneNotFound.
Proof.
  assert (H : "z1"%string <> EmptyString) by discriminate.
  split; [exact H |].
  apply (zone_deletion keeps crossing_test morning "ann" "z1"
           {| zu_zone_name := None; zu_polygon := None |} (Some 1) corridor).
  exact H.
Defined.

(** ** What every feed keeps *)

Lemma set_zone_analysis_ids (zid : string) (summary : AnalysisResult)
  (at_ : DateTime) (zs : list Zone) :
  map z_zone_id (set_zone_analysis zid summary at_ zs) = map z_zone_id zs
  /\ map z_polygon (set_zone_analysis zid summary at_ zs) = map z_polygon zs.
Proof.
  induction zs as [| z zs [IH1 IH2]]; simpl; [split; reflexivity |].
  destruct (String.eqb (z_zone_id z) zid); simpl;
    [split; reflexivity | now rewrite IH1, IH2].
Qed.

Lemma set_zone_analysis_consistent (zid : string) (summary : AnalysisResult)
  (at_ : DateTime) (zs : list Zone) :
  zone_id summary = zid -> total_count summary = peak_count summary ->
  Forall zone_consistent zs ->
  Forall zone_consistent (set_zone_analysis zid summary at_ zs).
Proof.
  intros Hid Htot. induction 1 as [| z zs Hz Hzs IH]; simpl; [constructor |].
  destruct (String.eqb (z_zone_id z) zid) eqn:E.
  - constructor; [| exact Hzs]. unfold zone_consistent. simpl.
    apply String.eqb_eq in E. rewrite Htot. split; congruence.
  - now constructor.
Qed.

Lemma set_at_ids (idx : nat) (f : Zone -> Zone) (zs : list Zone) :
  (forall z, z_zone_id (f z) = z_zone_id z) ->
  map z_zone_id (set_at idx f zs) = map z_zone_id zs.
Proof.
  intro Hf. revert idx. induction zs as [| z zs IH]; intros [| i]; simpl;
    trivial; [now rewrite Hf | now rewrite IH].
Qed.

Lemma set_at_forall (P : Zone -> Prop) (idx : nat) (f : Zone -> Zone)
  (zs : list Zone) :
  (forall z, P z -> P (f z)) -> Forall P zs -> Forall P (set_at idx f zs).
Proof.
  intros Hf H. revert idx.
  induction H as [| z zs Hz Hzs IH]; intros [| i]; simpl; constructor; auto.
Qed.

Lemma filter_keeps_distinct_ids (keep : Zone -> bool) (zs : list Zone) :
  NoDup (map z_zone_id zs) -> NoDup (map z_zone_id (filter keep zs)).
Proof.
  induction zs as [| z zs IH]; intro Hnd; simpl in *; [exact Hnd |].
  apply NoDup_cons_iff in Hnd. destruct Hnd as [Hfresh Hrest].
  destruct (keep z); simpl; [| now apply IH].
  apply NoDup_cons_iff. split; [| now apply IH].
  intro Hin. apply Hfresh.
  apply in_map_iff in Hin. destruct Hin as (q & Hq & Hin).
  apply filter_In in Hin. apply in_map_iff. exists q. tauto.
Qed.

(** What one request keeps. *)
Lemma serves_keeps (strip : string -> string)
  (ppt : Polygon -> Point -> option Z) (feed_obj feed' : Feed) :
  serves strip ppt feed_obj feed' ->
  polygons_ok feed_obj -> NoDup (zone_ids feed_obj) ->
  Forall zone_consistent (zones feed_obj) ->
  polygons_ok feed' /\ NoDup (zone_ids feed')
  /\ Forall zone_consistent (zones feed')
  /\ detections_cache feed' = detections_cache feed_obj
  /\ summary_fps feed' = summary_fps feed_obj.
Proof.
  unfold polygons_ok, zone_ids.
  intros [zid data feed Hfresh | zid data feed | zid feed | env user data feed]
         Hpoly Hnd Hcons.
  - (* create_zone *)
    unfold create_zone.
    destruct (zr_polygon data) as [polygon |]; [| auto].
    destruct (too_short polygon) eqn:Hshort; [auto |].
    destruct (to_polygon polygon) as [ps |] eqn:Hps; [| auto].
    cbn [snd zones detections_cache summary_fps].
    destruct (to_polygon_round polygon ps Hps) as [_ Hl].
    apply too_short_false in Hshort.
    repeat split; trivial.
    + apply Forall_app. split; trivial.
      constructor; [| constructor]. cbn [z_polygon]. lia.
    + rewrite map_app. cbn [map z_zone_id].
      apply NoDup_app; trivial.
      * constructor; [intros [] | constructor].
      * intros x Hx [<- | []]. now apply Hfresh.
    + apply Forall_app. split; trivial.
      constructor; [reflexivity | constructor].
  - (* update_zone *)
    unfold update_zone.
    destruct (zone_index zid (zones feed)) as [idx |]; [| auto].
    assert (Hgo : forall polygon,
              match polygon with
              | Some p => (3 <= length p)%nat
              | None => True
              end ->
              let feed1 :=
                with_zones
                  (set_at idx
                     (set_fields (option_map strip (zu_zone_name data)) polygon)
                     (zones feed)) feed in
              Forall (fun z => (3 <= length (z_polygon z))%nat) (zones feed1)
              /\ NoDup (map z_zone_id (zones feed1))
              /\ Forall zone_consistent (zones feed1)
              /\ detections_cache feed1 = detections_cache feed
              /\ summary_fps feed1 = summary_fps feed).
    { intros polygon Hp. cbn [with_zones zones detections_cache summary_fps].
      repeat split; trivial.
      - apply set_at_forall; trivial. intros z Hz.
        destruct polygon; cbn [set_fields z_polygon]; trivial.
      - now rewrite set_at_ids.
      - apply set_at_forall; trivial. }
    destruct (zu_polygon data) as [polygon |].
    + destruct (too_short polygon) eqn:Hshort; [auto |].
      destruct (to_polygon polygon) as [ps |] eqn:Hps; [| auto].
      apply (Hgo (Some ps)).
      destruct (to_polygon_round polygon ps Hps) as [_ Hl].
      apply too_short_false in Hshort. lia.
    + destruct (zu_zone_name data); cbn [option_map]; [| auto].
      now apply (Hgo None).
  - (* delete_zone *)
    unfold delete_zone.
    destruct (existsb _ (zones feed)); [| auto].
    cbn [snd with_zones zones detections_cache summary_fps].
    repeat split; trivial.
    + apply Forall_forall. intros z Hz. apply filter_In in Hz.
      rewrite Forall_forall in Hpoly. now apply Hpoly.
    + now apply filter_keeps_distinct_ids.
    + apply Forall_forall. intros z Hz. apply filter_In in Hz.
      rewrite Forall_forall in Hcons. now apply Hcons.
  - (* analyze_zone *)
    destruct (analyze_zone ppt env user data feed) as [[r | e] feed1] eqn:E.
    2:{ apply analyze_zone_err in E. subst feed1. auto. }
    apply analyze_zone_ok in E.
    destruct E as (z & zone & _ & _ & _ & Han & ->).
    assert (Hr : zone_id r = z /\ total_count r = peak_count r).
    { apply analyze_ok in Han. destruct Han as (_ & _ & ->).
      split; reflexivity. }
    destruct Hr as [Hid Htot].
    cbn [snd]. unfold store. cbn [zones detections_cache summary_fps].
    destruct (set_zone_analysis_ids (zone_id r) r (utcnow_zone env)
                (zones feed)) as [Hids Hpolys].
    repeat split; trivial.
    + rewrite <- Forall_map with (f := z_polygon)
        (P := fun p => (3 <= length p)%nat).
      rewrite Hpolys. now apply Forall_map.
    + now rewrite Hids.
    + now apply set_zone_analysis_consistent.
Qed.

(** X14. Whatever zone requests and analyses are served on an uploaded
    feed, in any number and order, with zones created under fresh ids: the
    detection cache stays the one the upload built and the feed never gets
    a summary; every zone polygon has at least three points; no two zones
    share an id; and the total count of a zone is 0 until it is analysed
    and then the peak count of its last analysis. *)
Theorem served_feed_invariants (strip : string -> string)
  (ppt : Polygon -> Point -> option Z) (Frame : Type)
  (DETECTOR : Frame -> option (list RawBox)) (raw_fps : Q)
  (frames : list Frame) (feed_obj : Feed) :
  reaches strip ppt (feed_doc Frame DETECTOR raw_fps frames) feed_obj ->
  detections_cache feed_obj = generate_detections Frame DETECTOR raw_fps frames
  /\ summary_fps feed_obj = None
  /\ polygons_ok feed_obj
  /\ NoDup (zone_ids feed_obj)
  /\ Forall zone_consistent (zones feed_obj).
Proof.
  induction 1 as [| feed feed' _ IH Hstep].
  - repeat split; try constructor.
  - destruct IH as (Hcache & Hsum & Hpoly & Hnd & Hcons).
    destruct (serves_keeps strip ppt feed feed' Hstep Hpoly Hnd Hcons)
      as (Hpoly' & Hnd' & Hcons' & Hcache' & Hsum').
    repeat split; trivial; congruence.
Qed.

(** X14 on the clip: uploaded, given the gate as z2, then analysed. *)
Lemma served_feed_invariants_witness :
  exists feed_obj,
    reaches keeps crossing_test (feed_doc (list RawBox) reads_boxes 25 clip)
      feed_obj
    /\ map z_total_count (zones feed_obj) = [Some 2]
    /\ polygons_ok feed_obj.
Proof.
  set (start := feed_doc (list RawBox) reads_boxes 25 clip).
  set (made := snd (create_zone keeps "z2" gate_request start)).
  set (done := snd (analyze_zone crossing_test morning "ann"
                      {| req_zone_id := Some "z2"%string;
                         req_frame_step := None |} made)).
  assert (Hreach : reaches keeps crossing_test start done).
  { apply reaches_next with (feed_obj := made).
    - apply reaches_next with (feed_obj := start).
      + apply reaches_start.
      + apply serves_create. intros [].
    - apply serves_analyze. }
  exists done. split; [exact Hreach |]. split; [reflexivity |].
  apply (served_feed_invariants keeps crossing_test (list RawBox) reads_boxes
           25 clip done Hreach).
Defined.

(** ** Counting in one frame *)

Section OneFrame.

Variable ppt : Polygon -> Point -> option Z.
Variable Frame : Type.
Variable DETECTOR : Frame -> option (list RawBox).

Lemma keep_box_filter (zs : list Polygon) (acc : list RawBox) (box : RawBox) :
  keep_box ppt zs acc box
  = acc ++ (if in_some_zone ppt zs box then [box] else []).
Proof.
  unfold keep_box, in_some_zone, in_zone.
  destruct (unpack_box box) as [[[[x1 y1] x2] y2] |]; cbn [centroid].
  - destruct (existsb _ zs); [reflexivity | now rewrite app_nil_r].
  - replace (existsb (fun _ => false) zs) with false
      by (induction zs; trivial).
    now rewrite app_nil_r.
Qed.

Lemma keep_fold (zs : list Polygon) (bs : list RawBox) : forall acc,
  fold_left (keep_box ppt zs) bs acc
  = acc ++ filter (in_some_zone ppt zs) bs.
Proof.
  induction bs as [| b bs IH]; intro acc; simpl.
  - now rewrite app_nil_r.
  - rewrite IH, keep_box_filter, <- app_assoc.
    now destruct (in_some_zone ppt zs b).
Qed.

Lemma usable_zones_spec (zs : list Polygon) :
  usable_zones (Some zs)
  = match filter (fun z => (3 <=? length z)%nat) zs with
    | [] => None
    | kept => Some kept
    end.
Proof.
  destruct zs; reflexivity.
Qed.

(** X15. The count [analyze_frame] returns is the number of boxes it
    returns.  With at least one zone polygon of three points or more, the
    boxes are the serialised detections whose centre lies in one of those
    polygons, in detection order, shorter polygons being ignored; a
    detector that raises yields no box. *)
Theorem frame_analysis (zones_ : option (list Polygon)) (img : Frame) :
  fst (analyze_frame Frame DETECTOR ppt zones_ img)
  = Z.of_nat (length (snd (analyze_frame Frame DETECTOR ppt zones_ img)))
  /\ (forall zs z kept,
        zones_ = Some zs ->
        filter (fun z => (3 <=? length z)%nat) zs = z :: kept ->
        snd (analyze_frame Frame DETECTOR ppt zones_ img)
        = filter (in_some_zone ppt (z :: kept))
            (_boxes_to_serializable
               (match DETECTOR img with Some bs => bs | None => [] end)))
  /\ (DETECTOR img = None ->
      analyze_frame Frame DETECTOR ppt zones_ img = (0, [])).
Proof.
  split; [reflexivity |]. split.
  - intros zs z kept -> Hkept. unfold analyze_frame. cbn [snd].
    rewrite usable_zones_spec, Hkept. now rewrite keep_fold.
  - intros Hnone. unfold analyze_frame. rewrite Hnone.
    now destruct (usable_zones zones_).
Qed.

(** X16. Zones that all have fewer than three points count as no zone at
    all: every serialised detection is returned, as when the request
    carries no zones. *)
Theorem frame_analysis_without_zones (zs : list Polygon) (img : Frame) :
  Forall (fun z => (length z < 3)%nat) zs ->
  analyze_frame Frame DETECTOR ppt (Some zs) img
  = analyze_frame Frame DETECTOR ppt None img
  /\ snd (analyze_frame Frame DETECTOR ppt (Some zs) img)
     = _boxes_to_serializable
         (match DETECTOR img with Some bs => bs | None => [] end).
Proof.
  intro Hshort.
  assert (Hnone : usable_zones (Some zs) = None).
  { rewrite usable_zones_spec. rewrite filter_none; trivial.
    intros z Hz. rewrite Forall_forall in Hshort.
    apply Nat.leb_gt. now apply Hshort. }
  unfold analyze_frame. rewrite Hnone. split; reflexivity.
Qed.

(** X17. For one zone polygon of at least three points, the count
    [analyze_frame] returns for an image is the count [analyze_zone]
    records for the cache entry that an upload writes for the same image. *)
Theorem frame_count_is_occupancy (polygon : Polygon) (img : Frame)
  (bs : list RawBox) (frame_idx : Z) (t : option Q) :
  (3 <= length polygon)%nat ->
  DETECTOR img = Some bs ->
  fst (analyze_frame Frame DETECTOR ppt (Some [polygon]) img)
  = occupancy ppt polygon
      {| frame := frame_idx; timestamp := t;
         boxes := _boxes_to_serializable bs |}.
Proof.
  intros Hlen Hdet. unfold analyze_frame, occupancy. cbn [fst boxes].
  rewrite usable_zones_spec. cbn [filter].
  replace (3 <=? length polygon)%nat with true
    by (symmetry; now apply Nat.leb_le).
  rewrite Hdet, keep_fold. cbn [app]. f_equal. f_equal.
  apply filter_ext. intro b. unfold in_some_zone. cbn [existsb].
  apply orb_false_r.
Qed.

End OneFrame.

(** X15 on the first frame of the clip, with the square and a zone of two
    points: the two boxes of four coordinates lie in the square. *)
Lemma frame_analysis_witness :
  analyze_frame (list RawBox) reads_boxes crossing_test
    (Some [square; [(0, 0); (1, 1)]])
    [[10; 10; 20; 20]; [11; 11; 21; 21]; [1; 2; 3]]
  = (2, [[10; 10; 20; 20]; [11; 11; 21; 21]]).
Proof.
  pose proof (frame_analysis crossing_test (list RawBox) reads_boxes
                (Some [square; [(0, 0); (1, 1)]])
                [[10; 10; 20; 20]; [11; 11; 21; 21]; [1; 2; 3]])
    as (Hcount & Hboxes & _).
  specialize (Hboxes _ square [] eq_refl eq_refl).
  apply injective_projections; [rewrite Hcount |]; rewrite Hboxes;
    reflexivity.
Defined.

(** X16 on the first frame of the clip, with a zone of two points only:
    all boxes of four coordinates are returned. *)
Lemma frame_analysis_without_zones_witness :
  Forall (fun z : Polygon => (length z < 3)%nat) [[(0, 0); (1, 1)]]
  /\ snd (analyze_frame (list RawBox) reads_boxes crossing_test
            (Some [[(0, 0); (1, 1)]])
            [[300; 300; 310; 310]; [1; 2; 3]])
     = [[300; 300; 310; 310]].
Proof.
  assert (H : Forall (fun z : Polygon => (length z < 3)%nat) [[(0, 0); (1, 1)]]).
  { constructor; [simpl; lia | constructor]. }
  split; [exact H |].
  rewrite (proj2 (frame_analysis_without_zones crossing_test (list RawBox)
                    reads_boxes _ _ H)).
  reflexivity.
Defined.

(** X17 on the first frame of the clip and the square. *)
Lemma frame_count_is_occupancy_witness :
  (3 <= length square)%nat
  /\ fst (analyze_frame (list RawBox) reads_boxes crossing_test (Some [square])
            [[10; 10; 20; 20]; [11; 11; 21; 21]; [1; 2; 3]])
     = 2.
Proof.
  assert (H : (3 <= length square)%nat) by (simpl; lia).
  split; [exact H |].
  rewrite (frame_count_is_occupancy crossing_test (list RawBox) reads_boxes
             square _ _ 0 None H eq_refl).
  reflexivity.
Defined.
